(** * SCS protocol utilities and NAVCON test harness: codec, decision table
      and transition validator

    A shallow embedding of the Python sources

    - [Simulation/Core/scs_protocol.py]
    - [Simulation/Python_Tests/Command_Tests/test_navcon_decisions.py]
    - [Phase 1/NAVCON/Navcon_state.py]
    - [Phase 1/NAVCON/NaVCON_Tester.py]

    Python integers are unbounded, so they are [Z]; the bit operators
    [<<], [>>], [&], [|] are [Z.shiftl], [Z.shiftr], [Z.land], [Z.lor]
    (two's complement on negative numbers, as in Python).  A raised exception
    is the [Raise] branch of [result]; a [dict] is a [gmap]. *)

From Stdlib Require Import ZArith String DecimalString Lia.
From stdpp Require Import gmap strings.

Local Open Scope string_scope.
Local Open Scope Z_scope.

(** ** Python runtime pieces used by the sources *)

Module Py.

(** The exceptions the modelled code can raise. *)
Inductive exn : Type :=
| ValueError (msg : string)
| KeyError (key : string).

(** A computation that returns or raises. *)
Inductive result (A : Type) : Type :=
| Ok (a : A)
| Raise (e : exn).
Arguments Ok {A} a.
Arguments Raise {A} e.

Definition bind {A B : Type} (r : result A) (k : A -> result B) : result B :=
  match r with
  | Ok a => k a
  | Raise e => Raise e
  end.

#[global] Instance result_ret : MRet result := fun A a => Ok a.
#[global] Instance result_bind : MBind result := fun A B k r => bind r k.

Definition is_ok {A : Type} (r : result A) : bool :=
  match r with Ok _ => true | Raise _ => false end.

Definition raises_ValueError {A : Type} (r : result A) : bool :=
  match r with Raise (ValueError _) => true | _ => false end.

(** [str(n)] / [f"{n}"] for an [int]: decimal digits, a leading [-] when
    negative. *)
Definition str (n : Z) : string := NilZero.string_of_int (Z.to_int n).

(** [sub in s] on strings. *)
Fixpoint contains (sub s : string) : bool :=
  if String.prefix sub s then true
  else match s with
       | EmptyString => false
       | String _ s' => contains sub s'
       end.

(** The chained comparison [lo <= v <= hi]. *)
Definition between (lo v hi : Z) : bool := (lo <=? v) && (v <=? hi).

(** [bytes(l)]: every element must be in [range(0, 256)]. *)
Definition bytes_of (l : list Z) : result (list Z) :=
  if forallb (fun b => between 0 b 255) l then Ok l
  else Raise (ValueError "bytes must be in range(0, 256)").

End Py.

Import Py.

(** ** Simulation/Core/scs_protocol.py *)

Module ScsProtocol.

(** [class SystemState(Enum)] *)
Inductive SystemState : Type := IDLE | CAL | MAZE | SOS.

(** [class SubsystemID(Enum)] *)
Inductive SubsystemID : Type := HUB | SNC | MDPS | SS.

(** [class SensorColor(Enum)] *)
Inductive SensorColor : Type := WHITE | RED | GREEN | BLUE | BLACK.

#[global] Instance SystemState_eq_dec : EqDecision SystemState.
Proof. solve_decision. Defined.
#[global] Instance SubsystemID_eq_dec : EqDecision SubsystemID.
Proof. solve_decision. Defined.
#[global] Instance SensorColor_eq_dec : EqDecision SensorColor.
Proof. solve_decision. Defined.

(** The [.value] of each enum member. *)
Definition SystemState_value (s : SystemState) : Z :=
  match s with IDLE => 0 | CAL => 1 | MAZE => 2 | SOS => 3 end.

Definition SubsystemID_value (s : SubsystemID) : Z :=
  match s with HUB => 0 | SNC => 1 | MDPS => 2 | SS => 3 end.

Definition SensorColor_value (c : SensorColor) : Z :=
  match c with WHITE => 0 | RED => 1 | GREEN => 2 | BLUE => 3 | BLACK => 4 end.

(** [SystemState(v)]: lookup of a member by value, [ValueError] when there
    is none. *)
Definition SystemState_of (v : Z) : result SystemState :=
  match v with
  | 0 => Ok IDLE | 1 => Ok CAL | 2 => Ok MAZE | 3 => Ok SOS
  | _ => Raise (ValueError (str v +:+ " is not a valid SystemState"))
  end.

(** [SubsystemID(v)] *)
Definition SubsystemID_of (v : Z) : result SubsystemID :=
  match v with
  | 0 => Ok HUB | 1 => Ok SNC | 2 => Ok MDPS | 3 => Ok SS
  | _ => Raise (ValueError (str v +:+ " is not a valid SubsystemID"))
  end.

(** [@dataclass class SCSPacket]: the four fields. *)
Record SCSPacket : Type := mkSCSPacket {
  control : Z;
  dat1 : Z;
  dat0 : Z;
  dec : Z
}.

(** [SCSPacket.__post_init__]: the loop over the four (name, value) pairs,
    raising at the first one outside 0-255. *)
Fixpoint post_init_loop (fields : list (string * Z)) : result unit :=
  match fields with
  | [] => Ok tt
  | (field, value) :: rest =>
      if negb (between 0 value 255)
      then Raise (ValueError (field +:+ " must be 0-255, got " +:+ str value))
      else post_init_loop rest
  end.

Definition __post_init__ (self : SCSPacket) : result unit :=
  post_init_loop [("control", control self); ("dat1", dat1 self);
                  ("dat0", dat0 self); ("dec", dec self)].

(** The call [SCSPacket(control, dat1, dat0, dec)]: the generated
    [__init__] stores the fields and runs [__post_init__]. *)
Definition SCSPacket_new (control dat1 dat0 dec : Z) : result SCSPacket :=
  let self := mkSCSPacket control dat1 dat0 dec in
  _ ← __post_init__ self; Ok self.

(** [SCSPacket.to_bytes] *)
Definition to_bytes (self : SCSPacket) : result (list Z) :=
  bytes_of [control self; dat1 self; dat0 self; dec self].

(** [SCSPacket.from_bytes] *)
Definition from_bytes (data : list Z) : result SCSPacket :=
  match data with
  | [b0; b1; b2; b3] => SCSPacket_new b0 b1 b2 b3
  | _ => Raise (ValueError ("Packet must be 4 bytes, got "
                            +:+ str (Z.of_nat (length data))))
  end.

(** [SCSPacket.get_sys_state], [get_subsystem], [get_ist] *)
Definition get_sys_state (self : SCSPacket) : result SystemState :=
  SystemState_of (Z.land (Z.shiftr (control self) 6) 3).

Definition get_subsystem (self : SCSPacket) : result SubsystemID :=
  SubsystemID_of (Z.land (Z.shiftr (control self) 4) 3).

Definition get_ist (self : SCSPacket) : Z := Z.land (control self) 15.

(** [create_control_byte] *)
Definition create_control_byte (sys_state : SystemState)
    (subsystem : SubsystemID) (ist : Z) : result Z :=
  if negb (between 0 ist 15)
  then Raise (ValueError ("IST must be 0-15, got " +:+ str ist))
  else Ok (Z.lor (Z.lor (Z.shiftl (SystemState_value sys_state) 6)
                        (Z.shiftl (SubsystemID_value subsystem) 4))
                 (Z.land ist 15)).

(** [parse_control_byte] *)
Definition parse_control_byte (control : Z)
    : result (SystemState * SubsystemID * Z) :=
  sys_state ← SystemState_of (Z.land (Z.shiftr control 6) 3);
  subsystem ← SubsystemID_of (Z.land (Z.shiftr control 4) 3);
  let ist := Z.land control 15 in
  Ok (sys_state, subsystem, ist).

(** [make_maze_mdps_packet], [make_maze_ss_color_packet],
    [make_maze_ss_angle_packet]: control byte, then the packet. *)
Definition make_maze_mdps_packet (ist dat1 dat0 dec : Z) : result SCSPacket :=
  ctrl ← create_control_byte MAZE MDPS ist;
  SCSPacket_new ctrl dat1 dat0 dec.

Definition make_maze_ss_color_packet (color_code : Z) : result SCSPacket :=
  ctrl ← create_control_byte MAZE SS 1;
  SCSPacket_new ctrl 0 color_code 0.

Definition make_maze_ss_angle_packet (angle : Z) : result SCSPacket :=
  ctrl ← create_control_byte MAZE SS 2;
  SCSPacket_new ctrl angle 0 0.

(** The codec as the packet constructors and their readers compose it:
    [encode] is [create_control_byte], [SCSPacket(...)], [to_bytes] (the
    body of every [make_*_packet] followed by the send), and [decode] is
    [from_bytes] followed by [parse_control_byte] on the control byte. *)
Definition encode (sys_state : SystemState) (subsystem : SubsystemID)
    (ist dat1 dat0 dec : Z) : result (list Z) :=
  ctrl ← create_control_byte sys_state subsystem ist;
  pkt ← SCSPacket_new ctrl dat1 dat0 dec;
  to_bytes pkt.

Definition decode (data : list Z)
    : result (SystemState * SubsystemID * Z * Z * Z * Z) :=
  pkt ← from_bytes data;
  '(sys_state, subsystem, ist) ← parse_control_byte (control pkt);
  Ok (sys_state, subsystem, ist, dat1 pkt, dat0 pkt, dec pkt).

(** [SCSPacket._decode_color_packet]; [color_map] is its local dict and
    [join] is [", ".join]. *)
Definition color_map : gmap Z string :=
  list_to_map [(0, "WHITE"); (1, "RED"); (2, "GREEN"); (3, "BLUE");
               (4, "BLACK")].

Fixpoint join (sep : string) (l : list string) : string :=
  match l with
  | [] => EmptyString
  | [x] => x
  | x :: rest => x +:+ sep +:+ join sep rest
  end.

Definition mem (x : Z) (l : list Z) : bool := existsb (Z.eqb x) l.

Definition _decode_color_packet (self : SCSPacket) : string :=
  let color_val := dat0 self in
  if color_val =? 0 then "All WHITE"
  else if color_val =? 73 then "All RED (End-of-Maze)"
  else
    let s1 := Z.land color_val 3 in
    let s2 := Z.land (Z.shiftr color_val 3) 3 in
    let s3 := Z.land (Z.shiftr color_val 6) 3 in
    let colors := [] in
    let colors :=
      if mem s1 [2; 3; 4]
      then (colors ++ ["S1=" +:+ default (str s1) (color_map !! s1)])%list
      else colors in
    let colors :=
      if mem s2 [1; 2; 3; 4]
      then (colors ++ ["S2=" +:+ default (str s2) (color_map !! s2)])%list
      else colors in
    let colors :=
      if mem s3 [2; 3; 4]
      then (colors ++ ["S3=" +:+ default (str s3) (color_map !! s3)])%list
      else colors in
    match colors with
    | [] => "Color code: " +:+ str color_val
    | _ => join ", " colors
    end.

(** [encode_color_byte]; [color_bits] is its local dict, total on the
    enum. *)
Definition color_bits (c : SensorColor) : Z :=
  match c with WHITE => 0 | RED => 1 | GREEN => 2 | BLUE => 3 | BLACK => 4 end.

Definition encode_color_byte (s1 s2 s3 : SensorColor) : Z :=
  let s1_bits := Z.land (color_bits s1) 3 in
  let s2_bits := Z.land (color_bits s2) 3 in
  let s3_bits := Z.land (color_bits s3) 3 in
  Z.lor (Z.lor (Z.shiftl s3_bits 6) (Z.shiftl s2_bits 3)) s1_bits.

(** [decode_color_byte]; [bits_to_color] is its local dict, read with
    [.get(bits, SensorColor.WHITE)]. *)
Definition bits_to_color : gmap Z SensorColor :=
  list_to_map [(0, WHITE); (1, RED); (2, GREEN); (3, BLUE); (4, BLACK)].

Definition decode_color_byte (color_byte : Z)
    : SensorColor * SensorColor * SensorColor :=
  let s1_bits := Z.land color_byte 3 in
  let s2_bits := Z.land (Z.shiftr color_byte 3) 3 in
  let s3_bits := Z.land (Z.shiftr color_byte 6) 3 in
  let s1 := default WHITE (bits_to_color !! s1_bits) in
  let s2 := default WHITE (bits_to_color !! s2_bits) in
  let s3 := default WHITE (bits_to_color !! s3_bits) in
  (s1, s2, s3).

(** Predefined color patterns; the trailing number of each source line is
    kept as a comment. *)
Definition COLOR_ALL_WHITE : Z := 0.
Definition COLOR_S2_GREEN : Z := encode_color_byte WHITE GREEN WHITE. (* 16 *)
Definition COLOR_S2_RED : Z := encode_color_byte WHITE RED WHITE.     (* 8 *)
Definition COLOR_S2_BLUE : Z := encode_color_byte WHITE BLUE WHITE.   (* 24 *)
Definition COLOR_S2_BLACK : Z := encode_color_byte WHITE BLACK WHITE. (* 32 *)
Definition COLOR_S1_GREEN : Z := encode_color_byte GREEN WHITE WHITE. (* 2 *)
Definition COLOR_S3_GREEN : Z := encode_color_byte WHITE WHITE GREEN. (* 128 *)
Definition COLOR_ALL_RED : Z := 73.

(** [conditions_met.get(key, default)]: a read of the caller's dict.  The
    dict is threaded through, so that what the validator leaves behind can
    be stated. *)
Definition dict_get (d : gmap string bool) (key : string) (dflt : bool)
    : bool * gmap string bool :=
  (default dflt (d !! key), d).

(** [is_valid_transition]: the result and the dict after the call.
    [a and b] evaluates [b] only when [a] is true. *)
Definition is_valid_transition (current_state next_state : SystemState)
    (conditions_met : gmap string bool) : bool * gmap string bool :=
  if bool_decide (current_state = IDLE) && bool_decide (next_state = CAL)
  then dict_get conditions_met "touch_sensor" false
  else if bool_decide (current_state = CAL) && bool_decide (next_state = MAZE)
  then
    let '(a, conditions_met) := dict_get conditions_met "ss_eoc" false in
    if a then dict_get conditions_met "mdps_eoc" false
    else (a, conditions_met)
  else if (bool_decide (current_state = MAZE) && bool_decide (next_state = SOS))
          || (bool_decide (current_state = SOS) && bool_decide (next_state = MAZE))
  then dict_get conditions_met "pure_tone" false
  else if bool_decide (current_state = MAZE) && bool_decide (next_state = IDLE)
  then dict_get conditions_met "end_of_maze" false
  else (false, conditions_met).

(** The three payload bytes are each in [0,255]. *)
Definition in_byte_range (d1 d0 de : Z) : Prop :=
  0 <= d1 <= 255 /\ 0 <= d0 <= 255 /\ 0 <= de <= 255.

(** [make_idle_hub_packet], [make_idle_snc_packet], [make_cal_ss_packet],
    [make_cal_mdps_packet], [make_maze_ss_eom_packet]; the keyword defaults
    of the source are arguments here. *)
Definition make_idle_hub_packet : result SCSPacket :=
  ctrl ← create_control_byte IDLE HUB 0;
  SCSPacket_new ctrl 0 0 0.

Definition make_idle_snc_packet (touch_count distance : Z) : result SCSPacket :=
  ctrl ← create_control_byte IDLE SNC 0;
  SCSPacket_new ctrl touch_count distance 0.

Definition make_cal_ss_packet (ist : Z) : result SCSPacket :=
  ctrl ← create_control_byte CAL SS ist;
  SCSPacket_new ctrl 0 0 0.

Definition make_cal_mdps_packet (ist speed angle : Z) : result SCSPacket :=
  ctrl ← create_control_byte CAL MDPS ist;
  if ist =? 0 then SCSPacket_new ctrl speed speed 0
  else if ist =? 1 then SCSPacket_new ctrl angle 0 0
  else SCSPacket_new ctrl 0 0 0.

Definition make_maze_ss_eom_packet : result SCSPacket :=
  ctrl ← create_control_byte MAZE SS 3;
  SCSPacket_new ctrl 0 0 0.

(** The conditions dict in which every key is present and true, and the
    transition relation it validates. *)
Definition all_conditions : gmap string bool :=
  list_to_map [("touch_sensor", true); ("ss_eoc", true); ("mdps_eoc", true);
               ("pure_tone", true); ("end_of_maze", true)].

Definition valid_step (conditions_met : gmap string bool)
    (a b : SystemState) : Prop :=
  fst (is_valid_transition a b conditions_met) = true.

End ScsProtocol.

(** ** Simulation/Python_Tests/Command_Tests/test_navcon_decisions.py *)

Module NavconDecisions.

Import ScsProtocol.

(** The three angle bands.  The source names them in
    [self.angle_categories] ('straight', 'alignment', 'steep') and in the
    text of [show_scenario_analysis] (STRAIGHT, ALIGNMENT, STEEP
    category). *)
Inductive AngleCategory : Type := STRAIGHT | ALIGNMENT | STEEP.

#[global] Instance AngleCategory_eq_dec : EqDecision AngleCategory.
Proof. solve_decision. Defined.

(** [self.angle_categories] *)
Definition angle_categories : list (AngleCategory * list Z) :=
  [(STRAIGHT, [0; 1; 2; 5]);
   (ALIGNMENT, [6; 10; 20; 30; 45]);
   (STEEP, [46; 50; 60; 75; 90])].

(** [self.colors]: key to (color code, description); set once in
    [__init__] and only read afterwards. *)
Definition colors : gmap string (Z * string) :=
  list_to_map
    [("WHITE", (COLOR_ALL_WHITE, "Navigable surface"));
     ("S2_RED", (COLOR_S2_RED, "RED line (navigable, end-of-path marker)"));
     ("S2_GREEN", (COLOR_S2_GREEN, "GREEN line (navigable, intersection)"));
     ("S2_BLUE", (COLOR_S2_BLUE, "BLUE wall (obstacle, must avoid)"));
     ("S2_BLACK", (COLOR_S2_BLACK, "BLACK wall (obstacle, must avoid)"));
     ("S1_GREEN", (COLOR_S1_GREEN, "GREEN on left edge"));
     ("S3_GREEN", (COLOR_S3_GREEN, "GREEN on right edge"));
     ("ALL_RED", (COLOR_ALL_RED, "All RED (end-of-maze)"))].

(** The [if angle <= 5 / elif angle <= 45 / else] chain that ends
    [get_expected_behavior] and [show_scenario_analysis], as the band it
    selects. *)
Definition classify_angle (angle : Z) : AngleCategory :=
  if angle <=? 5 then STRAIGHT
  else if angle <=? 45 then ALIGNMENT
  else STEEP.

(** [NAVCONDecisionTester.get_expected_behavior]; [self.colors[color_key]]
    raises [KeyError] on an unknown key. *)
Definition get_expected_behavior (angle : Z) (color_key : string)
    : result string :=
  match colors !! color_key with
  | None => Raise (KeyError color_key)
  | Some (color_code, _) =>
      if contains "BLUE" color_key || contains "BLACK" color_key
      then Ok "AVOID - Rotate away from obstacle"
      else if String.eqb color_key "ALL_RED"
      then Ok "STOP - End-of-maze detected"
      else if angle <=? 5
      then Ok ("FORWARD - Direct crossing at " +:+ str angle +:+ "°")
      else if angle <=? 45
      then Ok ("ALIGN - Incremental correction for " +:+ str angle +:+ "°")
      else Ok ("ROTATE - Major rotation for " +:+ str angle +:+ "°")
  end.

(** The text [get_expected_behavior] attaches to each band. *)
Definition band_text (c : AngleCategory) (angle : Z) : string :=
  match c with
  | STRAIGHT => "FORWARD - Direct crossing at " +:+ str angle +:+ "°"
  | ALIGNMENT => "ALIGN - Incremental correction for " +:+ str angle +:+ "°"
  | STEEP => "ROTATE - Major rotation for " +:+ str angle +:+ "°"
  end.

End NavconDecisions.

(** ** Phase 1/NAVCON/Navcon_state.py *)

Module NavconState.

(** [class NAVCONAction(IntEnum)] *)
Inductive NAVCONAction : Type :=
| FORWARD | BACKWARD | ROTATE_L | ROTATE_R | STOP
| STEER | L180 | R180 | L360 | ERROR.

#[global] Instance NAVCONAction_eq_dec : EqDecision NAVCONAction.
Proof. solve_decision. Defined.

(** [@dataclass class SCSPacket]: no [__post_init__] in this file. *)
Record SCSPacket : Type := mkSCSPacket {
  control : Z;
  dat1 : Z;
  dat0 : Z;
  dec : Z
}.

(** [SimpleTester._decode] *)
Definition _decode (pkt : SCSPacket) : NAVCONAction * string :=
  let dec := dec pkt in
  if dec =? 0 then
    (FORWARD, "Forward R=" +:+ str (dat1 pkt) +:+ " L=" +:+ str (dat0 pkt))
  else if dec =? 1 then
    (BACKWARD, "Backward R=" +:+ str (dat1 pkt) +:+ " L=" +:+ str (dat0 pkt))
  else if dec =? 2 then
    let ang := Z.lor (Z.shiftl (dat1 pkt) 8) (dat0 pkt) in
    if ang =? 180 then (L180, "Left 180°")
    else if ang =? 360 then (L360, "Left 360°")
    else if ang <=? 10 then (STEER, "Left steer " +:+ str ang +:+ "°")
    else (ROTATE_L, "Left " +:+ str ang +:+ "°")
  else if dec =? 3 then
    let ang := Z.lor (Z.shiftl (dat1 pkt) 8) (dat0 pkt) in
    if ang =? 180 then (R180, "Right 180°")
    else if ang <=? 10 then (STEER, "Right steer " +:+ str ang +:+ "°")
    else (ROTATE_R, "Right " +:+ str ang +:+ "°")
  else if dec =? 4 then (STOP, "Stop")
  else (ERROR, "Unknown DEC=" +:+ str dec).

(** [class SystemState(IntEnum)], [class SubsystemID(IntEnum)],
    [class ColorType(IntEnum)] with the integer each member is. *)
Inductive SystemState : Type := SYS_IDLE | SYS_CAL | SYS_MAZE | SYS_SOS.
Inductive SubsystemID : Type := SUB_HUB | SUB_SNC | SUB_MDPS | SUB_SS.
Inductive ColorType : Type := WHITE | RED | GREEN | BLUE | BLACK.

Definition SystemState_int (s : SystemState) : Z :=
  match s with SYS_IDLE => 0 | SYS_CAL => 1 | SYS_MAZE => 2 | SYS_SOS => 3 end.

Definition SubsystemID_int (s : SubsystemID) : Z :=
  match s with SUB_HUB => 0 | SUB_SNC => 1 | SUB_MDPS => 2 | SUB_SS => 3 end.

Definition ColorType_int (c : ColorType) : Z :=
  match c with WHITE => 0 | RED => 1 | GREEN => 2 | BLUE => 3 | BLACK => 4 end.

(** [SCSPacket.to_bytes]: each field is masked with 0xFF before [bytes]. *)
Definition to_bytes (self : SCSPacket) : result (list Z) :=
  bytes_of [Z.land (control self) 255; Z.land (dat1 self) 255;
            Z.land (dat0 self) 255; Z.land (dec self) 255].

(** [make_control] *)
Definition make_control (sys : SystemState) (sub : SubsystemID) (ist : Z) : Z :=
  Z.lor (Z.lor (Z.shiftl (Z.land (SystemState_int sys) 3) 6)
               (Z.shiftl (Z.land (SubsystemID_int sub) 3) 4))
        (Z.land ist 15).

(** [pkt_ss_colors], [pkt_ss_angle], [pkt_ss_eom] *)
Definition pkt_ss_colors (s1 s2 s3 : ColorType) : SCSPacket :=
  let data := Z.lor (Z.lor (Z.shiftl (Z.land (ColorType_int s1) 7) 6)
                           (Z.shiftl (Z.land (ColorType_int s2) 7) 3))
                    (Z.land (ColorType_int s3) 7) in
  mkSCSPacket (make_control SYS_MAZE SUB_SS 1)
              (Z.land (Z.shiftr data 8) 255) (Z.land data 255) 0.

Definition pkt_ss_angle (angle_deg_u8 : Z) : SCSPacket :=
  mkSCSPacket (make_control SYS_MAZE SUB_SS 2) (Z.land angle_deg_u8 255) 0 0.

Definition pkt_ss_eom : SCSPacket :=
  mkSCSPacket (make_control SYS_MAZE SUB_SS 3) 0 0 0.

(** [pkt_mdps_ist1_batt], [pkt_mdps_ist2_rotation], [pkt_mdps_ist3_speed],
    [pkt_mdps_ist4_distance] *)
Definition pkt_mdps_ist1_batt (level : Z) : SCSPacket :=
  mkSCSPacket (make_control SYS_MAZE SUB_MDPS 1) (Z.land level 255) 0 0.

Definition pkt_mdps_ist2_rotation (angle direction : Z) : SCSPacket :=
  mkSCSPacket (make_control SYS_MAZE SUB_MDPS 2)
              (Z.land (Z.shiftr angle 8) 255) (Z.land angle 255)
              (Z.land direction 255).

Definition pkt_mdps_ist3_speed (vr vl : Z) : SCSPacket :=
  mkSCSPacket (make_control SYS_MAZE SUB_MDPS 3)
              (Z.land vr 255) (Z.land vl 255) 0.

Definition pkt_mdps_ist4_distance (mm : Z) : SCSPacket :=
  mkSCSPacket (make_control SYS_MAZE SUB_MDPS 4)
              (Z.land (Z.shiftr mm 8) 255) (Z.land mm 255) 0.

(** The test of [run_scenario] that logs PASS:
    [act == expect or (expect == FORWARD and act == STEER)]. *)
Definition scenario_passes (act expect : NAVCONAction) : bool :=
  bool_decide (act = expect)
  || (bool_decide (expect = FORWARD) && bool_decide (act = STEER)).

End NavconState.

(** ** Phase 1/NAVCON/NaVCON_Tester.py *)

Module NavconTester.

(** [class SystemState(IntEnum)], [class SubsystemID(IntEnum)] *)
Inductive SystemState : Type := SYS_IDLE | SYS_CAL | SYS_MAZE | SYS_SOS.
Inductive SubsystemID : Type := SUB_HUB | SUB_SNC | SUB_MDPS | SUB_SS.

(** [class NAVCONAction(IntEnum)] *)
Inductive NAVCONAction : Type :=
| ACT_STOP | ACT_FORWARD | ACT_BACKWARD | ACT_TURN_LEFT | ACT_TURN_RIGHT
| ACT_TURN_180_LEFT | ACT_TURN_180_RIGHT | ACT_TURN_360_LEFT
| ACT_DIFFERENTIAL_STEER | ACT_WALL_FOLLOW_TURN | ACT_STEERING_CORRECTION
| ACT_ERROR_STOP.

#[global] Instance SystemState_eq_dec : EqDecision SystemState.
Proof. solve_decision. Defined.
#[global] Instance SubsystemID_eq_dec : EqDecision SubsystemID.
Proof. solve_decision. Defined.
#[global] Instance NAVCONAction_eq_dec : EqDecision NAVCONAction.
Proof. solve_decision. Defined.

(** The integer an [IntEnum] member stands for in arithmetic. *)
Definition SystemState_int (s : SystemState) : Z :=
  match s with SYS_IDLE => 0 | SYS_CAL => 1 | SYS_MAZE => 2 | SYS_SOS => 3 end.

Definition SubsystemID_int (s : SubsystemID) : Z :=
  match s with SUB_HUB => 0 | SUB_SNC => 1 | SUB_MDPS => 2 | SUB_SS => 3 end.

(** [SystemState(v)], [SubsystemID(v)] *)
Definition SystemState_of (v : Z) : result SystemState :=
  match v with
  | 0 => Ok SYS_IDLE | 1 => Ok SYS_CAL | 2 => Ok SYS_MAZE | 3 => Ok SYS_SOS
  | _ => Raise (ValueError (str v +:+ " is not a valid SystemState"))
  end.

Definition SubsystemID_of (v : Z) : result SubsystemID :=
  match v with
  | 0 => Ok SUB_HUB | 1 => Ok SUB_SNC | 2 => Ok SUB_MDPS | 3 => Ok SUB_SS
  | _ => Raise (ValueError (str v +:+ " is not a valid SubsystemID"))
  end.

(** [@dataclass class SCSPacket] with its three properties; no
    [__post_init__] in this file. *)
Record SCSPacket : Type := mkSCSPacket {
  control : Z;
  dat1 : Z;
  dat0 : Z;
  dec : Z
}.

Definition system_state (self : SCSPacket) : result SystemState :=
  SystemState_of (Z.land (Z.shiftr (control self) 6) 3).

Definition subsystem_id (self : SCSPacket) : result SubsystemID :=
  SubsystemID_of (Z.land (Z.shiftr (control self) 4) 3).

Definition internal_state (self : SCSPacket) : Z := Z.land (control self) 15.

(** [NAVCONGUITester.make_control_byte] *)
Definition make_control_byte (sys_state : SystemState)
    (subsystem : SubsystemID) (internal_state : Z) : Z :=
  Z.lor (Z.lor (Z.shiftl (Z.land (SystemState_int sys_state) 3) 6)
               (Z.shiftl (Z.land (SubsystemID_int subsystem) 3) 4))
        (Z.land internal_state 15).

(** [NAVCONGUITester.create_angle_packet] *)
Definition create_angle_packet (angle : Z) : SCSPacket :=
  let control := make_control_byte SYS_MAZE SUB_SS 2 in
  let angle_byte := if angle >=? 0 then angle else 256 + angle in
  mkSCSPacket control angle_byte 0 0.

(** [NAVCONGUITester.decode_navcon_response] *)
Definition decode_navcon_response (packet : SCSPacket)
    : result (NAVCONAction * string) :=
  sub ← subsystem_id packet;
  if bool_decide (sub ≠ SUB_SNC) || negb (internal_state packet =? 3)
  then Ok (ACT_ERROR_STOP, "Invalid NAVCON packet format")
  else if dec packet =? 0 then
    if (dat1 packet =? 0) && (dat0 packet =? 0)
    then Ok (ACT_STOP, "Stop")
    else Ok (ACT_FORWARD, "Forward L=" +:+ str (dat0 packet)
                          +:+ " R=" +:+ str (dat1 packet))
  else if dec packet =? 1 then
    Ok (ACT_BACKWARD, "Backward L=" +:+ str (dat0 packet)
                      +:+ " R=" +:+ str (dat1 packet))
  else if dec packet =? 2 then
    let rotation := Z.lor (Z.shiftl (dat1 packet) 8) (dat0 packet) in
    if rotation =? 180 then Ok (ACT_TURN_180_LEFT, "180° Left Turn")
    else if rotation =? 360 then Ok (ACT_TURN_360_LEFT, "360° Left Turn")
    else if rotation <=? 10
    then Ok (ACT_STEERING_CORRECTION,
             "Steering Correction " +:+ str rotation +:+ "° Left")
    else Ok (ACT_TURN_LEFT, str rotation +:+ "° Left Turn")
  else if dec packet =? 3 then
    let rotation := Z.lor (Z.shiftl (dat1 packet) 8) (dat0 packet) in
    if rotation =? 180 then Ok (ACT_TURN_180_RIGHT, "180° Right Turn")
    else if rotation <=? 10
    then Ok (ACT_STEERING_CORRECTION,
             "Steering Correction " +:+ str rotation +:+ "° Right")
    else Ok (ACT_TURN_RIGHT, str rotation +:+ "° Right Turn")
  else Ok (ACT_ERROR_STOP, "Unknown dec=" +:+ str (dec packet)).

(** [class ColorType(IntEnum)] *)
Inductive ColorType : Type := WHITE | RED | GREEN | BLUE | BLACK.

Definition ColorType_int (c : ColorType) : Z :=
  match c with WHITE => 0 | RED => 1 | GREEN => 2 | BLUE => 3 | BLACK => 4 end.

(** [ColorType(v)] *)
Definition ColorType_of (v : Z) : result ColorType :=
  match v with
  | 0 => Ok WHITE | 1 => Ok RED | 2 => Ok GREEN | 3 => Ok BLUE | 4 => Ok BLACK
  | _ => Raise (ValueError (str v +:+ " is not a valid ColorType"))
  end.

(** The [.name] of the enum members. *)
Definition ColorType_name (c : ColorType) : string :=
  match c with
  | WHITE => "WHITE" | RED => "RED" | GREEN => "GREEN" | BLUE => "BLUE"
  | BLACK => "BLACK"
  end.

Definition SystemState_name (s : SystemState) : string :=
  match s with
  | SYS_IDLE => "SYS_IDLE" | SYS_CAL => "SYS_CAL" | SYS_MAZE => "SYS_MAZE"
  | SYS_SOS => "SYS_SOS"
  end.

Definition SubsystemID_name (s : SubsystemID) : string :=
  match s with
  | SUB_HUB => "SUB_HUB" | SUB_SNC => "SUB_SNC" | SUB_MDPS => "SUB_MDPS"
  | SUB_SS => "SUB_SS"
  end.

(** [NAVCONGUITester.create_color_packet]; its debugging [print] writes to
    the console only and is left out. *)
Definition create_color_packet (s1 s2 s3 : ColorType) : SCSPacket :=
  let color_data := Z.lor (Z.lor (Z.shiftl (ColorType_int s1) 6)
                                 (Z.shiftl (ColorType_int s2) 3))
                          (ColorType_int s3) in
  let control := make_control_byte SYS_MAZE SUB_SS 1 in
  mkSCSPacket control (Z.land (Z.shiftr color_data 8) 255)
              (Z.land color_data 255) 0.

(** [NAVCONGUITester.create_calibration_packet] *)
Definition create_calibration_packet (vL vR : Z) : SCSPacket :=
  let control := make_control_byte SYS_CAL SUB_MDPS 0 in
  mkSCSPacket control vR vL 0.

(** [NAVCONGUITester.describe_sent_packet] *)
Definition describe_sent_packet (packet : SCSPacket) : result string :=
  let generic :=
    sys ← system_state packet;
    sub ← subsystem_id packet;
    Ok (SystemState_name sys +:+ ":" +:+ SubsystemID_name sub +:+ ":IST"
        +:+ str (internal_state packet)) in
  sub ← subsystem_id packet;
  if bool_decide (sub = SUB_SS) then
    if internal_state packet =? 1 then
      let color_data := Z.lor (Z.shiftl (dat1 packet) 8) (dat0 packet) in
      s1 ← ColorType_of (Z.land (Z.shiftr color_data 6) 7);
      s2 ← ColorType_of (Z.land (Z.shiftr color_data 3) 7);
      s3 ← ColorType_of (Z.land color_data 7);
      Ok ("Colors: S1=" +:+ ColorType_name s1 +:+ " S2=" +:+ ColorType_name s2
          +:+ " S3=" +:+ ColorType_name s3)
    else if internal_state packet =? 2 then
      let angle := if dat1 packet <? 128 then dat1 packet
                   else dat1 packet - 256 in
      Ok ("Angle: " +:+ str angle +:+ "°")
    else generic
  else if bool_decide (sub = SUB_MDPS) && (internal_state packet =? 0) then
    Ok ("Calibration: vL=" +:+ str (dat0 packet) +:+ " vR="
        +:+ str (dat1 packet))
  else generic.

End NavconTester.

(** ** The pure-tone dual-detection validator *)

Module PureTone.

Import ScsProtocol.

(** Modelled from the spec: the tone event of section 3, [{start_time,
    duration_ms}].  The validator is not among the Python sources, which
    only script tone timelines (test_pure_tone.py). *)
Record ToneEvent : Type := mkToneEvent {
  start_time : Z;
  duration_ms : Z
}.

(** Modelled from the spec: the time of the tone-end event, at which the
    validator is consulted. *)
Definition tone_end (e : ToneEvent) : Z := start_time e + duration_ms e.

(** Modelled from the spec: the two states of section 4.5;
    [WAITING_SECOND] retains the first tone and its deadline. *)
Inductive Phase : Type :=
| WAITING_FIRST
| WAITING_SECOND (first : ToneEvent) (deadline : Z).

(** Modelled from the spec: the outcome of a detection attempt. *)
Inductive Outcome : Type := ACCEPT | REJECT.

#[global] Instance Outcome_eq_dec : EqDecision Outcome.
Proof. solve_decision. Defined.

(** Modelled from the spec: the validator's state is its phase together
    with the system state that an accepted pair toggles. *)
Record Validator : Type := mkValidator {
  phase : Phase;
  sys_state : SystemState
}.

(** Modelled from the spec: [500 <= duration_ms <= 1000]. *)
Definition valid_duration (d : Z) : bool := between 500 d 1000.

(** Modelled from the spec: the MAZE/SOS toggle (the spec names no other
    state, which is left as it is). *)
Definition toggle (s : SystemState) : SystemState :=
  match s with
  | MAZE => SOS
  | SOS => MAZE
  | s => s
  end.

(** Modelled from the spec: a tone evaluated in [WAITING_FIRST]: stored
    with a deadline 2000 ms after its end when its duration is valid,
    dropped silently otherwise. *)
Definition as_first (e : ToneEvent) : Phase :=
  if valid_duration (duration_ms e)
  then WAITING_SECOND e (tone_end e + 2000)
  else WAITING_FIRST.

(** Modelled from the spec: the transition of section 4.5 on one tone-end
    event, with the outcome it reports, if any. *)
Definition on_tone_end (v : Validator) (e : ToneEvent)
    : Validator * option Outcome :=
  match phase v with
  | WAITING_FIRST => (mkValidator (as_first e) (sys_state v), None)
  | WAITING_SECOND first deadline =>
      if deadline <? tone_end e
      then (mkValidator (as_first e) (sys_state v), Some REJECT)
      else if valid_duration (duration_ms e)
      then (mkValidator WAITING_FIRST (toggle (sys_state v)), Some ACCEPT)
      else (v, None)
  end.

(** Modelled from the spec: the validator consulted on each event of a
    stream in turn; the outcomes are collected in order. *)
Fixpoint run (v : Validator) (events : list ToneEvent)
    : Validator * list (option Outcome) :=
  match events with
  | [] => (v, [])
  | e :: rest =>
      let '(v1, o) := on_tone_end v e in
      let '(v2, os) := run v1 rest in
      (v2, o :: os)
  end.

(** Modelled from the spec: a fresh validator. *)
Definition init (s : SystemState) : Validator := mkValidator WAITING_FIRST s.

(** Modelled from the spec: every event of the stream ends after the
    2000 ms window that the tone ending at [t] opened, and so on along
    the stream: no tone has a successor within its window. *)
Fixpoint isolated (t : Z) (events : list ToneEvent) : Prop :=
  match events with
  | [] => True
  | e :: rest => t + 2000 < tone_end e /\ isolated (tone_end e) rest
  end.

End PureTone.

(** ** Coms tester/SNC.py *)

Module ComsSNC.

(** [class SystemState(Enum)], [class SubsystemID(Enum)] *)
Inductive SystemState : Type := IDLE | CAL | MAZE | SOS.
Inductive SubsystemID : Type := HUB | SNC | MDPS | SS.

#[global] Instance SystemState_eq_dec : EqDecision SystemState.
Proof. solve_decision. Defined.
#[global] Instance SubsystemID_eq_dec : EqDecision SubsystemID.
Proof. solve_decision. Defined.

Definition SystemState_value (s : SystemState) : Z :=
  match s with IDLE => 0 | CAL => 1 | MAZE => 2 | SOS => 3 end.

Definition SubsystemID_value (s : SubsystemID) : Z :=
  match s with HUB => 0 | SNC => 1 | MDPS => 2 | SS => 3 end.

Definition SystemState_of (v : Z) : result SystemState :=
  match v with
  | 0 => Ok IDLE | 1 => Ok CAL | 2 => Ok MAZE | 3 => Ok SOS
  | _ => Raise (ValueError (str v +:+ " is not a valid SystemState"))
  end.

Definition SubsystemID_of (v : Z) : result SubsystemID :=
  match v with
  | 0 => Ok HUB | 1 => Ok SNC | 2 => Ok MDPS | 3 => Ok SS
  | _ => Raise (ValueError (str v +:+ " is not a valid SubsystemID"))
  end.

Definition SubsystemID_name (s : SubsystemID) : string :=
  match s with HUB => "HUB" | SNC => "SNC" | MDPS => "MDPS" | SS => "SS" end.

(** [class SCSPacket]: a plain object with four attributes, no check. *)
Record SCSPacket : Type := mkSCSPacket {
  control : Z;
  dat1 : Z;
  dat0 : Z;
  dec : Z
}.

(** [get_system_state], [get_subsystem_id], [get_internal_state] *)
Definition get_system_state (self : SCSPacket) : result SystemState :=
  SystemState_of (Z.land (Z.shiftr (control self) 6) 3).

Definition get_subsystem_id (self : SCSPacket) : result SubsystemID :=
  SubsystemID_of (Z.land (Z.shiftr (control self) 4) 3).

Definition get_internal_state (self : SCSPacket) : Z :=
  Z.land (control self) 15.

(** [create_control_byte] *)
Definition create_control_byte (sys_state : SystemState)
    (subsystem : SubsystemID) (ist : Z) : Z :=
  Z.lor (Z.lor (Z.shiftl (Z.land (SystemState_value sys_state) 3) 6)
               (Z.shiftl (Z.land (SubsystemID_value subsystem) 3) 4))
        (Z.land ist 15).

(** [class StateTransition] and the table [STATE_TRANSITIONS]. *)
Record StateTransition : Type := mkStateTransition {
  current_sys : SystemState;
  current_sub : SubsystemID;
  current_ist : Z;
  next_sys : SystemState;
  next_sub : SubsystemID;
  next_ist : Z;
  description : string
}.

Definition STATE_TRANSITIONS : list StateTransition :=
  [mkStateTransition IDLE SNC 0 CAL SS 0 "SNC Touch → SS Calibrate";
   mkStateTransition CAL SS 0 CAL SS 1 "SS Calibrate → SS EoC";
   mkStateTransition CAL SS 1 CAL MDPS 0 "SS EoC → MDPS vop Cal";
   mkStateTransition CAL MDPS 0 CAL MDPS 1 "MDPS vop → MDPS Battery";
   mkStateTransition CAL MDPS 1 CAL SS 1 "MDPS Battery → SS Colors";
   mkStateTransition CAL SS 1 CAL SNC 0 "SS Colors → SNC Touch Check";
   mkStateTransition CAL SNC 0 MAZE SNC 1 "SNC 2nd Touch → MAZE Pure Tone";
   mkStateTransition MAZE SNC 1 MAZE SNC 2 "Pure Tone → Touch Detection";
   mkStateTransition MAZE SNC 2 MAZE SNC 3 "Touch → Navigation Control";
   mkStateTransition MAZE SNC 3 MAZE MDPS 4 "NAVCON → MDPS Distance";
   mkStateTransition MAZE MDPS 4 MAZE MDPS 3 "Distance → Speed";
   mkStateTransition MAZE MDPS 3 MAZE MDPS 2 "Speed → Rotation";
   mkStateTransition MAZE MDPS 2 MAZE MDPS 1 "Rotation → Battery";
   mkStateTransition MAZE MDPS 1 MAZE SS 1 "Battery → SS Colors";
   mkStateTransition MAZE SS 1 MAZE SS 2 "Colors → Incidence";
   mkStateTransition MAZE SS 2 MAZE SNC 1 "Incidence → Pure Tone";
   mkStateTransition MAZE SS 2 MAZE SS 3 "Incidence → End of Maze";
   mkStateTransition SOS SNC 0 MAZE SNC 1 "SOS Pure Tone → MAZE Pure Tone"].

(** [MARVTestInterface.is_valid_packet] *)
Definition is_valid_packet (packet : SCSPacket) : result bool :=
  sys_state ← get_system_state packet;
  subsystem ← get_subsystem_id packet;
  let ist := get_internal_state packet in
  Ok ((SystemState_value sys_state <=? 3)
      && (SubsystemID_value subsystem <=? 3)
      && (ist <=? 15)).

(** [MARVTestInterface.check_packet_expectation]; [self.expected_next] is
    an argument. *)
Definition check_packet_expectation
    (expected_next : option (SystemState * SubsystemID * Z))
    (packet : SCSPacket) : result bool :=
  match expected_next with
  | None => Ok true
  | Some (exp_sys, exp_sub, exp_ist) =>
      sys ← get_system_state packet;
      if negb (bool_decide (sys = exp_sys)) then Ok false
      else
        sub ← get_subsystem_id packet;
        if negb (bool_decide (sub = exp_sub)) then Ok false
        else Ok (get_internal_state packet =? exp_ist)
  end.

(** [MARVTestInterface.update_expected_next]: from [self.current_state] to
    the new [self.expected_next] and the text put on the label. *)
Definition update_expected_next (current_state : SystemState)
    : option (SystemState * SubsystemID * Z) * string :=
  let next_options :=
    omap (fun transition =>
            if bool_decide (current_sys transition = current_state)
            then Some (next_sys transition, next_sub transition,
                       next_ist transition, description transition)
            else None)
         STATE_TRANSITIONS in
  match next_options with
  | [] => (None, "Unknown state transition")
  | [(next_sys, next_sub, next_ist, desc)] =>
      (Some (next_sys, next_sub, next_ist),
       SubsystemID_name next_sub +:+ ":IST" +:+ str next_ist +:+ " - " +:+ desc)
  | _ => (None, "Multiple possibilities - see state diagram")
  end.

(** [MARVTestInterface.generate_response_packet] *)
Definition generate_response_packet (snc_packet : SCSPacket)
    : result (option SCSPacket) :=
  sys_state ← get_system_state snc_packet;
  let ist := get_internal_state snc_packet in
  if bool_decide (sys_state = CAL) && (ist =? 0)
  then Ok (Some (mkSCSPacket (create_control_byte CAL SS 1) 0 0 0))
  else if bool_decide (sys_state = MAZE) && (ist =? 1)
  then Ok (Some (mkSCSPacket (create_control_byte MAZE SS 1) 0 0 0))
  else Ok None.

End ComsSNC.

(** ** Phase 1/NAVCON/Phase0_Tester.py *)

Module Phase0Tester.

(** [class SCSPacket]: four attributes. *)
Record SCSPacket : Type := mkSCSPacket {
  control : Z;
  dat1 : Z;
  dat0 : Z;
  dec : Z
}.

(** [SCSPacket.__init__]: the control byte is composed from masked parts,
    the data bytes are masked with 0xFF. *)
Definition SCSPacket_new (sys_state subsystem ist dat1 dat0 dec : Z)
    : SCSPacket :=
  mkSCSPacket
    (Z.lor (Z.lor (Z.shiftl (Z.land sys_state 3) 6)
                  (Z.shiftl (Z.land subsystem 3) 4))
           (Z.land ist 15))
    (Z.land dat1 255) (Z.land dat0 255) (Z.land dec 255).

(** [SCSPacket.to_bytes] *)
Definition to_bytes (self : SCSPacket) : result (list Z) :=
  bytes_of [control self; dat1 self; dat0 self; dec self].

(** [SCSPacket.from_bytes]: [None] unless there are four bytes; the
    original control byte is kept. *)
Definition from_bytes (data : list Z) : option SCSPacket :=
  match data with
  | [control; dat1; dat0; dec] =>
      let sys_state := Z.land (Z.shiftr control 6) 3 in
      let subsystem := Z.land (Z.shiftr control 4) 3 in
      let ist := Z.land control 15 in
      let packet := SCSPacket_new sys_state subsystem ist dat1 dat0 dec in
      Some (mkSCSPacket control (Phase0Tester.dat1 packet)
                        (Phase0Tester.dat0 packet) (Phase0Tester.dec packet))
  | _ => None
  end.

(** [SCSCompliantTestHarness.get_subsystem_name] *)
Definition get_subsystem_name (subsystem : Z) : string :=
  let names := ["HUB"; "SNC"; "MDPS"; "SS"] in
  if (0 <=? subsystem) && (subsystem <? Z.of_nat (length names))
  then default "UNKNOWN" (names !! Z.to_nat subsystem)
  else "UNKNOWN".

(** The attributes of the harness that [handle_navcon_command] and the MDPS
    responses read and write.  [test_type] is an attribute that exists only
    between a start and a stop of a test.  [log] collects the messages
    given to [self.log], without the time stamp it prepends. *)
Record Harness : Type := mkHarness {
  robot_stopped : bool;
  current_distance : Z;
  test_type : option string;
  log : list string
}.

Definition add_log (h : Harness) (message : string) : Harness :=
  mkHarness (robot_stopped h) (current_distance h) (test_type h)
            (log h ++ [message]).

(** [SCSCompliantTestHarness.handle_navcon_command] *)
Definition handle_navcon_command (h : Harness) (packet : SCSPacket) : Harness :=
  let action := dec packet in
  let param1 := dat1 packet in
  let param2 := dat0 packet in
  if action =? 0 then
    let h := mkHarness false (current_distance h + 10) (test_type h) (log h) in
    let h := add_log h ("🎯 NAVCON ANALYSIS: FORWARD (L:" +:+ str param1
                        +:+ ", R:" +:+ str param2 +:+ ") - Distance: "
                        +:+ str (current_distance h) +:+ "mm") in
    match test_type h with
    | Some ty =>
        if String.eqb ty "QTP1A"
        then add_log h "🎯 QTP1.A ANALYSIS: FORWARD - checking if corrections were made first..."
        else if String.eqb ty "QTP13"
        then add_log h "🎯 QTP1.3 ANALYSIS: PASS - Direct FORWARD crossing (no rotation needed for ≤5°)"
        else h
    | None => h
    end
  else if action =? 1 then
    let h := mkHarness false (Z.max 0 (current_distance h - 10))
                       (test_type h) (log h) in
    add_log h ("🎯 NAVCON ANALYSIS: BACKWARD (L:" +:+ str param1
               +:+ ", R:" +:+ str param2 +:+ ") - Distance: "
               +:+ str (current_distance h) +:+ "mm")
  else if action =? 2 then
    let angle := Z.lor (Z.shiftl param1 8) param2 in
    let h := mkHarness true (current_distance h) (test_type h) (log h) in
    add_log h ("🎯 NAVCON ANALYSIS: ROTATE LEFT " +:+ str angle
               +:+ "° - Correction maneuver")
  else if action =? 3 then
    let angle := Z.lor (Z.shiftl param1 8) param2 in
    let h := mkHarness true (current_distance h) (test_type h) (log h) in
    add_log h ("🎯 NAVCON ANALYSIS: ROTATE RIGHT " +:+ str angle
               +:+ "° - Correction maneuver")
  else if action =? 4 then
    let h := mkHarness true (current_distance h) (test_type h) (log h) in
    add_log h "🎯 NAVCON ANALYSIS: STOP - Required before direction change"
  else h.

(** The packets built by [send_mdps_speed_response] and
    [send_mdps_distance_response] (what they pass to [send_packet]). *)
Definition mdps_speed_response (h : Harness) : SCSPacket :=
  let speed := if robot_stopped h then 0 else 80 in
  SCSPacket_new 2 2 3 speed speed 0.

Definition mdps_distance_response (h : Harness) : SCSPacket :=
  SCSPacket_new 2 2 4 (Z.land (Z.shiftr (current_distance h) 8) 255)
                (Z.land (current_distance h) 255) 0.

(** The commands of a session handled one after the other. *)
Definition handle_all (h : Harness) (packets : list SCSPacket) : Harness :=
  fold_left handle_navcon_command packets h.

End Phase0Tester.

(** ** The classifier of signed angles *)

Module SignedAngle.

Import NavconDecisions.

(** Modelled from the spec: the angle classifier on signed degrees of
    section 4.2, "Negative angles are accepted by taking absolute value
    before classification".  The classifier that receives negative angles
    is the navigation firmware, which is not among the Python sources:
    these only pack the signed angle ([create_angle_packet]) and list the
    scenarios at -40 and -45 degrees, and [get_expected_behavior] is only
    given angles from 0 to 90.  The bands are those of [classify_angle]. *)
Definition classify_signed_angle (degrees : Z) : AngleCategory :=
  classify_angle (Z.abs degrees).

(** The signed reading of an angle byte, as [describe_sent_packet] of
    NaVCON_Tester.py does it: [dat1 if dat1 < 128 else dat1 - 256]. *)
Definition signed_angle (dat1 : Z) : Z :=
  if dat1 <? 128 then dat1 else dat1 - 256.

(** Modelled from the spec: the classification of the angle that an SS
    angle packet carries: the byte read as a signed angle, then
    classified.  The receiver of the packet is the firmware. *)
Definition classify_angle_packet (packet : NavconTester.SCSPacket)
    : AngleCategory :=
  classify_signed_angle (signed_angle (NavconTester.dat1 packet)).

End SignedAngle.

(** * Properties *)

Import ScsProtocol.

(** ** Helper facts about the runtime pieces *)

Lemma between_spec (lo v hi : Z) : between lo v hi = true <-> lo <= v <= hi.
Proof. unfold between. rewrite andb_true_iff, !Z.leb_le. reflexivity. Qed.

Lemma between_false (lo v hi : Z) :
  between lo v hi = false <-> ~ (lo <= v <= hi).
Proof.
  rewrite <- between_spec. destruct (between lo v hi); split; congruence.
Qed.

Lemma land_3_cases (x : Z) :
  Z.land x 3 = 0 \/ Z.land x 3 = 1 \/ Z.land x 3 = 2 \/ Z.land x 3 = 3.
Proof.
  assert (H : Z.land x 3 = x mod 4) by (apply (Z.land_ones x 2); lia).
  rewrite H. pose proof (Z.mod_pos_bound x 4 ltac:(lia)). lia.
Qed.

(** A value in [0,15] is one of sixteen naturals: the case analysis behind
    the control-byte lemmas. *)
Lemma nibble_nat (ist : Z) :
  0 <= ist <= 15 -> exists n : nat, ist = Z.of_nat n /\ (n < 16)%nat.
Proof. intros H. exists (Z.to_nat ist). lia. Qed.

(** ** Packet construction *)

Lemma SCSPacket_new_ok (c d1 d0 de : Z) :
  0 <= c <= 255 -> 0 <= d1 <= 255 -> 0 <= d0 <= 255 -> 0 <= de <= 255 ->
  SCSPacket_new c d1 d0 de = Ok (mkSCSPacket c d1 d0 de).
Proof.
  intros Hc H1 H0 He.
  apply between_spec in Hc, H1, H0, He.
  unfold SCSPacket_new, __post_init__; simpl.
  rewrite Hc, H1, H0, He. reflexivity.
Qed.

Lemma SCSPacket_new_inv (c d1 d0 de : Z) (p : SCSPacket) :
  SCSPacket_new c d1 d0 de = Ok p ->
  p = mkSCSPacket c d1 d0 de /\
  0 <= c <= 255 /\ 0 <= d1 <= 255 /\ 0 <= d0 <= 255 /\ 0 <= de <= 255.
Proof.
  unfold SCSPacket_new, __post_init__; simpl.
  destruct (between 0 c 255) eqn:Hc; simpl; [|discriminate].
  destruct (between 0 d1 255) eqn:H1; simpl; [|discriminate].
  destruct (between 0 d0 255) eqn:H0; simpl; [|discriminate].
  destruct (between 0 de 255) eqn:He; simpl; [|discriminate].
  apply between_spec in Hc, H1, H0, He.
  intros [= <-]. auto.
Qed.

Lemma SCSPacket_new_raises (c d1 d0 de : Z) :
  raises_ValueError (SCSPacket_new c d1 d0 de) = true <->
  ~ (0 <= c <= 255 /\ 0 <= d1 <= 255 /\ 0 <= d0 <= 255 /\ 0 <= de <= 255).
Proof.
  unfold SCSPacket_new, __post_init__; simpl.
  destruct (between 0 c 255) eqn:Hc; simpl;
    [apply between_spec in Hc | apply between_false in Hc; tauto].
  destruct (between 0 d1 255) eqn:H1; simpl;
    [apply between_spec in H1 | apply between_false in H1; tauto].
  destruct (between 0 d0 255) eqn:H0; simpl;
    [apply between_spec in H0 | apply between_false in H0; tauto].
  destruct (between 0 de 255) eqn:He; simpl;
    [apply between_spec in He | apply between_false in He; tauto].
  split; [discriminate | tauto].
Qed.

Lemma to_bytes_ok (c d1 d0 de : Z) :
  0 <= c <= 255 -> 0 <= d1 <= 255 -> 0 <= d0 <= 255 -> 0 <= de <= 255 ->
  to_bytes (mkSCSPacket c d1 d0 de) = Ok [c; d1; d0; de].
Proof.
  intros Hc H1 H0 He.
  apply between_spec in Hc, H1, H0, He.
  unfold to_bytes, bytes_of; simpl.
  rewrite Hc, H1, H0, He. reflexivity.
Qed.

Lemma create_control_byte_ok (s : SystemState) (sub : SubsystemID) (ist : Z) :
  0 <= ist <= 15 ->
  exists c, create_control_byte s sub ist = Ok c /\ 0 <= c <= 255 /\
            c = SystemState_value s * 64 + SubsystemID_value sub * 16 + ist /\
            parse_control_byte c = Ok (s, sub, ist).
Proof.
  intros Hist. unfold create_control_byte.
  assert (Hb : between 0 ist 15 = true) by (apply between_spec; exact Hist).
  rewrite Hb; simpl. eexists; split; [reflexivity|].
  destruct (nibble_nat ist Hist) as (n & -> & Hn). clear Hist Hb.
  do 16 (destruct n as [| n];
         [destruct s, sub; vm_compute; intuition congruence |]).
  lia.
Qed.

Lemma create_control_byte_raises (s : SystemState) (sub : SubsystemID) (ist : Z) :
  raises_ValueError (create_control_byte s sub ist) = true <-> ~ (0 <= ist <= 15).
Proof.
  unfold create_control_byte.
  destruct (between 0 ist 15) eqn:Hb; simpl.
  - apply between_spec in Hb. split; [discriminate | tauto].
  - apply between_false in Hb. tauto.
Qed.

Lemma create_control_byte_value (s : SystemState) (sub : SubsystemID) (ist : Z) :
  create_control_byte s sub ist
    = Ok (SystemState_value s * 64 + SubsystemID_value sub * 16 + ist)
  <-> 0 <= ist <= 15.
Proof.
  split.
  - unfold create_control_byte.
    destruct (between 0 ist 15) eqn:Hb; simpl; [|discriminate].
    intros _. apply between_spec. exact Hb.
  - intros H. destruct (create_control_byte_ok s sub ist H) as (c & Hc & _ & -> & _).
    exact Hc.
Qed.

Lemma encode_ok (s : SystemState) (sub : SubsystemID) (ist d1 d0 de : Z) :
  0 <= ist <= 15 -> in_byte_range d1 d0 de ->
  encode s sub ist d1 d0 de
    = Ok [SystemState_value s * 64 + SubsystemID_value sub * 16 + ist; d1; d0; de].
Proof.
  intros Hist (H1 & H0 & He). unfold encode.
  destruct (create_control_byte_ok s sub ist Hist) as (c & Hc & Hr & -> & _).
  rewrite Hc; simpl.
  rewrite SCSPacket_new_ok by assumption; simpl.
  apply to_bytes_ok; assumption.
Qed.

Lemma encode_raises (s : SystemState) (sub : SubsystemID) (ist d1 d0 de : Z) :
  raises_ValueError (encode s sub ist d1 d0 de) = true <->
  ~ (0 <= ist <= 15 /\ in_byte_range d1 d0 de).
Proof.
  destruct (decide (0 <= ist <= 15)) as [Hist | Hist].
  - destruct (decide (in_byte_range d1 d0 de)) as [Hd | Hd].
    + rewrite encode_ok by assumption. simpl. split; [discriminate | tauto].
    + unfold encode.
      destruct (create_control_byte_ok s sub ist Hist) as (c & Hc & Hr & _).
      rewrite Hc; simpl.
      assert (Hn : raises_ValueError (SCSPacket_new c d1 d0 de) = true).
      { apply SCSPacket_new_raises. unfold in_byte_range in Hd. tauto. }
      destruct (SCSPacket_new c d1 d0 de) as [p | e]; simpl in *;
        [discriminate | tauto].
  - unfold encode.
    pose proof (proj2 (create_control_byte_raises s sub ist) Hist) as Hn.
    destruct (create_control_byte s sub ist) as [c | e]; simpl in *;
      [discriminate | tauto].
Qed.

(** [encode] is what each packet constructor followed by [to_bytes] does;
    here for [make_maze_mdps_packet]. *)
Lemma make_maze_mdps_packet_encode (ist d1 d0 de : Z) :
  (make_maze_mdps_packet ist d1 d0 de ≫= to_bytes) = encode MAZE MDPS ist d1 d0 de.
Proof.
  unfold make_maze_mdps_packet, encode.
  destruct (create_control_byte MAZE MDPS ist); reflexivity.
Qed.

(** The three getters of a packet read what [parse_control_byte] reads. *)
Lemma getters_parse_control_byte (p : SCSPacket) :
  parse_control_byte (control p)
    = (s ← get_sys_state p; sub ← get_subsystem p; Ok (s, sub, get_ist p)).
Proof. reflexivity. Qed.

(** C1.  For every system state, subsystem, ist in [0,15] and dat1, dat0,
    dec in [0,255], decoding the four bytes produced by encoding returns
    exactly the six original fields; and [parse_control_byte] applied to
    the byte made by [create_control_byte] returns the original
    (sys_state, subsystem, ist). *)
Theorem C1_codec_roundtrip (s : SystemState) (sub : SubsystemID)
    (ist d1 d0 de : Z) :
  0 <= ist <= 15 -> 0 <= d1 <= 255 -> 0 <= d0 <= 255 -> 0 <= de <= 255 ->
  (encode s sub ist d1 d0 de ≫= decode) = Ok (s, sub, ist, d1, d0, de) /\
  (create_control_byte s sub ist ≫= parse_control_byte) = Ok (s, sub, ist).
Proof.
  intros Hist H1 H0 He.
  destruct (create_control_byte_ok s sub ist Hist) as (c & Hc & Hr & Hv & Hp).
  split.
  - rewrite encode_ok by (unfold in_byte_range; auto).
    rewrite <- Hv. simpl. unfold decode, from_bytes.
    rewrite SCSPacket_new_ok by assumption. simpl.
    rewrite Hp. reflexivity.
  - rewrite Hc. simpl. exact Hp.
Qed.

Lemma C1_codec_roundtrip_witness :
  (0 <= 1 <= 15 /\ 0 <= 0 <= 255 /\ 0 <= 16 <= 255 /\ 0 <= 0 <= 255) /\
  (encode MAZE SS 1 0 16 0 ≫= decode) = Ok (MAZE, SS, 1, 0, 16, 0) /\
  (create_control_byte MAZE SS 1 ≫= parse_control_byte) = Ok (MAZE, SS, 1).
Proof. split; [lia | apply (C1_codec_roundtrip MAZE SS 1 0 16 0); lia]. Defined.

Example encode_maze_ss_color :
  encode MAZE SS 1 0 COLOR_S2_GREEN 0 = Ok [177; 0; 16; 0].
Proof. reflexivity. Qed.

Example decode_177 : decode [177; 0; 16; 0] = Ok (MAZE, SS, 1, 0, 16, 0).
Proof. reflexivity. Qed.

Example decode_wrong_length :
  decode [177; 0; 16] = Raise (ValueError "Packet must be 4 bytes, got 3").
Proof. reflexivity. Qed.

(** Decoding the control byte never fails, whatever the integer: both
    enums cover the two bits they are read from. *)
Lemma parse_control_byte_total (c : Z) : is_ok (parse_control_byte c) = true.
Proof.
  unfold parse_control_byte.
  destruct (land_3_cases (Z.shiftr c 6)) as [-> | [-> | [-> | ->]]];
    destruct (land_3_cases (Z.shiftr c 4)) as [-> | [-> | [-> | ->]]];
    reflexivity.
Qed.

(** C6.  [create_control_byte] raises [ValueError] exactly when ist is
    outside [0,15]; the [SCSPacket] constructor raises [ValueError] exactly
    when one of control, dat1, dat0, dec is outside [0,255]; and so does the
    encoding built from them.  For in-range values each of them returns,
    and what it returns holds the given values unchanged. *)
Theorem C6_range_errors (s : SystemState) (sub : SubsystemID)
    (ist c d1 d0 de : Z) :
  (raises_ValueError (create_control_byte s sub ist) = true
   <-> ~ (0 <= ist <= 15)) /\
  (create_control_byte s sub ist
     = Ok (SystemState_value s * 64 + SubsystemID_value sub * 16 + ist)
   <-> 0 <= ist <= 15) /\
  (raises_ValueError (SCSPacket_new c d1 d0 de) = true
   <-> ~ (0 <= c <= 255 /\ in_byte_range d1 d0 de)) /\
  (SCSPacket_new c d1 d0 de = Ok (mkSCSPacket c d1 d0 de)
   <-> 0 <= c <= 255 /\ in_byte_range d1 d0 de) /\
  (raises_ValueError (encode s sub ist d1 d0 de) = true
   <-> ~ (0 <= ist <= 15 /\ in_byte_range d1 d0 de)) /\
  (encode s sub ist d1 d0 de
     = Ok [SystemState_value s * 64 + SubsystemID_value sub * 16 + ist;
           d1; d0; de]
   <-> 0 <= ist <= 15 /\ in_byte_range d1 d0 de).
Proof.
  split; [apply create_control_byte_raises|].
  split; [apply create_control_byte_value|].
  split; [apply SCSPacket_new_raises|].
  split.
  { split.
    - intros H. apply SCSPacket_new_inv in H. unfold in_byte_range. tauto.
    - intros (Hc & H1 & H0 & He). apply SCSPacket_new_ok; assumption. }
  split; [apply encode_raises|].
  split.
  - intros H.
    destruct (decide (0 <= ist <= 15 /\ in_byte_range d1 d0 de)) as [Hd | Hd];
      [exact Hd|].
    apply (proj2 (encode_raises s sub ist d1 d0 de)) in Hd.
    rewrite H in Hd. discriminate.
  - intros [Hist Hd]. apply encode_ok; assumption.
Qed.

Example create_control_byte_16 :
  create_control_byte MAZE SS 16 = Raise (ValueError "IST must be 0-15, got 16").
Proof. reflexivity. Qed.

Example SCSPacket_new_256 :
  SCSPacket_new 177 0 256 0 = Raise (ValueError "dat0 must be 0-255, got 256").
Proof. reflexivity. Qed.

(** ** Color bytes *)

Lemma bits_to_color_land (x : Z) :
  default WHITE (bits_to_color !! Z.land x 3) <> BLACK.
Proof.
  destruct (land_3_cases x) as [-> | [-> | [-> | ->]]]; vm_compute; discriminate.
Qed.

(** The round trip does hold on the four colors that fit in two bits. *)
Lemma color_roundtrip_two_bit (s1 s2 s3 : SensorColor) :
  s1 <> BLACK -> s2 <> BLACK -> s3 <> BLACK ->
  decode_color_byte (encode_color_byte s1 s2 s3) = (s1, s2, s3).
Proof.
  intros H1 H2 H3. destruct s1, s2, s3; try congruence; reflexivity.
Qed.

(** C2.  The round trip fails on BLACK.  The center-BLACK pattern, which the
    source annotates with the value 32, is encoded as 0, the all-WHITE byte,
    and decodes to (WHITE, WHITE, WHITE). *)
Theorem C2_black_center_lost :
  encode_color_byte WHITE BLACK WHITE = 0 /\
  COLOR_S2_BLACK = COLOR_ALL_WHITE /\
  decode_color_byte (encode_color_byte WHITE BLACK WHITE) = (WHITE, WHITE, WHITE) /\
  decode_color_byte (encode_color_byte WHITE BLACK WHITE) <> (WHITE, BLACK, WHITE).
Proof. repeat split; vm_compute; congruence. Qed.

(** C10.  Whatever the integer given to [decode_color_byte] (so in
    particular for every byte in [0,255]), none of the three colors it
    returns is BLACK; and decoding an encoded triple gives WHITE wherever
    the triple has BLACK, and the original color elsewhere. *)
Theorem C10_decode_never_black (color_byte : Z) (s1 s2 s3 : SensorColor) :
  (let '(c1, c2, c3) := decode_color_byte color_byte in
   c1 <> BLACK /\ c2 <> BLACK /\ c3 <> BLACK) /\
  decode_color_byte (encode_color_byte s1 s2 s3)
    = (if bool_decide (s1 = BLACK) then WHITE else s1,
       if bool_decide (s2 = BLACK) then WHITE else s2,
       if bool_decide (s3 = BLACK) then WHITE else s3).
Proof.
  split.
  - unfold decode_color_byte. repeat split; apply bits_to_color_land.
  - destruct s1, s2, s3; reflexivity.
Qed.

(** ** Transition validator *)

(** C3.  [is_valid_transition] leaves the conditions dict as it was, and
    returns True exactly when the pair is IDLE->CAL with touch_sensor true,
    CAL->MAZE with ss_eoc and mdps_eoc both true, MAZE->SOS or SOS->MAZE with
    pure_tone true, or MAZE->IDLE with end_of_maze true; on every other pair
    it returns False. *)
Theorem C3_is_valid_transition (current_state next_state : SystemState)
    (conditions_met : gmap string bool) :
  snd (is_valid_transition current_state next_state conditions_met)
    = conditions_met /\
  (fst (is_valid_transition current_state next_state conditions_met) = true
   <->
   (current_state = IDLE /\ next_state = CAL /\
    conditions_met !! "touch_sensor" = Some true) \/
   (current_state = CAL /\ next_state = MAZE /\
    conditions_met !! "ss_eoc" = Some true /\
    conditions_met !! "mdps_eoc" = Some true) \/
   (((current_state = MAZE /\ next_state = SOS) \/
     (current_state = SOS /\ next_state = MAZE)) /\
    conditions_met !! "pure_tone" = Some true) \/
   (current_state = MAZE /\ next_state = IDLE /\
    conditions_met !! "end_of_maze" = Some true)).
Proof.
  unfold is_valid_transition, dict_get. split.
  - destruct current_state, next_state; simpl; try reflexivity.
    destruct (default false (conditions_met !! "ss_eoc")); reflexivity.
  - destruct current_state, next_state; simpl;
      try destruct (conditions_met !! "touch_sensor") as [[]|];
      try destruct (conditions_met !! "ss_eoc") as [[]|];
      try destruct (conditions_met !! "mdps_eoc") as [[]|];
      try destruct (conditions_met !! "pure_tone") as [[]|];
      try destruct (conditions_met !! "end_of_maze") as [[]|];
      simpl; intuition congruence.
Qed.

Example validate_idle_cal_no_touch :
  fst (is_valid_transition IDLE CAL {["touch_sensor" := false]}) = false.
Proof. reflexivity. Qed.

Example validate_idle_cal_touch :
  fst (is_valid_transition IDLE CAL {["touch_sensor" := true]}) = true.
Proof. reflexivity. Qed.

Example validate_cal_maze_one_eoc :
  fst (is_valid_transition CAL MAZE
         (<["ss_eoc" := true]> {["mdps_eoc" := false]})) = false.
Proof. reflexivity. Qed.

Example validate_cal_maze_both_eoc :
  fst (is_valid_transition CAL MAZE
         (<["ss_eoc" := true]> {["mdps_eoc" := true]})) = true.
Proof. reflexivity. Qed.

Example validate_idle_maze :
  fst (is_valid_transition IDLE MAZE
         (<["touch_sensor" := true]> {["pure_tone" := true]})) = false.
Proof. reflexivity. Qed.

(** ** NAVCON expected behavior and angle bands *)

Import NavconDecisions.

(** On the keys of the navigable lines (and on WHITE, which the function
    does not single out) the text returned is the one of the angle's band. *)
Lemma get_expected_behavior_band (angle : Z) (color_key : string) :
  In color_key ["S2_GREEN"; "S2_RED"; "S1_GREEN"; "S3_GREEN"; "WHITE"] ->
  get_expected_behavior angle color_key
    = Ok (band_text (classify_angle angle) angle).
Proof.
  intros Hk. simpl in Hk.
  assert (Hgen : forall key, (exists cd, colors !! key = Some cd) ->
            (contains "BLUE" key || contains "BLACK" key) = false ->
            String.eqb key "ALL_RED" = false ->
            get_expected_behavior angle key
              = Ok (band_text (classify_angle angle) angle)).
  { intros key [[code desc] Hc] Hw He.
    unfold get_expected_behavior, classify_angle, band_text.
    rewrite Hc, Hw, He.
    destruct (angle <=? 5); [reflexivity|].
    destruct (angle <=? 45); reflexivity. }
  destruct Hk as [<- | [<- | [<- | [<- | [<- | []]]]]];
    apply Hgen; try reflexivity; eexists; vm_compute; reflexivity.
Qed.

(** Every angle listed in [self.angle_categories] is in the band it is
    listed under. *)
Lemma angle_categories_consistent :
  Forall (fun '(c, angles) => Forall (fun a => classify_angle a = c) angles)
         angle_categories.
Proof. unfold angle_categories. repeat constructor. Qed.

(** C4.  The band boundaries: 5 is STRAIGHT, 6 and 45 are ALIGNMENT, 46 is
    STEEP; and for the navigable colors RED and GREEN the expected behavior
    at these angles is the FORWARD, ALIGN, ALIGN and ROTATE text. *)
Theorem C4_angle_boundaries :
  classify_angle 5 = STRAIGHT /\
  classify_angle 6 = ALIGNMENT /\
  classify_angle 45 = ALIGNMENT /\
  classify_angle 46 = STEEP /\
  Forall (fun key =>
            get_expected_behavior 5 key = Ok "FORWARD - Direct crossing at 5°" /\
            get_expected_behavior 6 key
              = Ok "ALIGN - Incremental correction for 6°" /\
            get_expected_behavior 45 key
              = Ok "ALIGN - Incremental correction for 45°" /\
            get_expected_behavior 46 key = Ok "ROTATE - Major rotation for 46°")
         ["S2_RED"; "S2_GREEN"].
Proof.
  repeat split; try reflexivity.
  repeat constructor; vm_compute; reflexivity.
Qed.

(** C5.  For every angle the expected behavior for the ALL_RED
    classification is the STOP / end-of-maze one: the angle bands are never
    consulted.  ALL_RED is the color code 73, the byte of three RED sensors,
    and a color packet carrying 73 is described as all RED, end of maze,
    before any sensor field is looked at. *)
Theorem C5_all_red_stops (angle : Z) (ctrl d1 de : Z) :
  get_expected_behavior angle "ALL_RED" = Ok "STOP - End-of-maze detected" /\
  fst <$> colors !! "ALL_RED" = Some 73 /\
  encode_color_byte RED RED RED = 73 /\
  decode_color_byte 73 = (RED, RED, RED) /\
  COLOR_ALL_RED = 73 /\
  _decode_color_packet (ScsProtocol.mkSCSPacket ctrl d1 73 de)
    = "All RED (End-of-Maze)".
Proof.
  repeat split; vm_compute; reflexivity.
Qed.

(** The signed reading of the angle byte is the one [describe_sent_packet]
    shows for an SS angle packet. *)
Lemma describe_shows_signed_angle (angle : Z) :
  NavconTester.describe_sent_packet (NavconTester.create_angle_packet angle)
  = Ok ("Angle: "
        +:+ str (SignedAngle.signed_angle
                   (NavconTester.dat1 (NavconTester.create_angle_packet angle)))
        +:+ "°").
Proof. reflexivity. Qed.




Example classify_signed_angle_scenarios :
  SignedAngle.classify_signed_angle (-3) = STRAIGHT /\
  SignedAngle.classify_signed_angle (-40) = ALIGNMENT /\
  SignedAngle.classify_signed_angle (-45) = ALIGNMENT /\
  SignedAngle.classify_signed_angle (-50) = STEEP /\
  SignedAngle.classify_angle_packet (NavconTester.create_angle_packet (-40))
    = ALIGNMENT.
Proof. repeat split. Qed.

Example expected_behavior_unknown_key :
  get_expected_behavior 0 "S2_PINK" = Raise (KeyError "S2_PINK").
Proof. vm_compute. reflexivity. Qed.

Example expected_behavior_obstacle :
  get_expected_behavior 3 "S2_BLACK" = Ok "AVOID - Rotate away from obstacle".
Proof. vm_compute. reflexivity. Qed.

(** ** Decoding the NAVCON decision packet *)

(** C7.  Take a decision packet whose dec is 2 or 3, and let the rotation
    be [(dat1 << 8) | dat0].  Both decoders, [SimpleTester._decode] and
    (for a packet from SNC with IST 3) [decode_navcon_response], report the
    steering correction when the rotation is at most 10, the 180 degree
    turn of the side given by dec when it is exactly 180, and for dec = 2
    the 360 degree left turn when it is exactly 360. *)
Theorem C7_small_rotation_is_steering (control dat1 dat0 dec : Z) :
  let pS := NavconState.mkSCSPacket control dat1 dat0 dec in
  let pT := NavconTester.mkSCSPacket control dat1 dat0 dec in
  let rotation := Z.lor (Z.shiftl dat1 8) dat0 in
  dec = 2 \/ dec = 3 ->
  NavconTester.subsystem_id pT = Ok NavconTester.SUB_SNC ->
  NavconTester.internal_state pT = 3 ->
  (rotation <= 10 ->
   fst (NavconState._decode pS) = NavconState.STEER /\
   exists desc, NavconTester.decode_navcon_response pT
                = Ok (NavconTester.ACT_STEERING_CORRECTION, desc)) /\
  (rotation = 180 ->
   fst (NavconState._decode pS)
     = (if dec =? 2 then NavconState.L180 else NavconState.R180) /\
   exists desc, NavconTester.decode_navcon_response pT
                = Ok (if dec =? 2 then NavconTester.ACT_TURN_180_LEFT
                      else NavconTester.ACT_TURN_180_RIGHT, desc)) /\
  (rotation = 360 -> dec = 2 ->
   fst (NavconState._decode pS) = NavconState.L360 /\
   exists desc, NavconTester.decode_navcon_response pT
                = Ok (NavconTester.ACT_TURN_360_LEFT, desc)).
Proof.
  intros pS pT rotation Hdec Hsub Hist.
  unfold NavconTester.decode_navcon_response, NavconState._decode.
  rewrite Hsub, Hist. subst pS pT. simpl. fold rotation.
  split; [|split].
  - intros Hrot.
    destruct (Z.eqb_spec rotation 180); [lia|].
    destruct (Z.eqb_spec rotation 360); [lia|].
    destruct (Z.leb_spec rotation 10); [|lia].
    destruct Hdec as [-> | ->]; simpl; eauto.
  - intros ->. destruct Hdec as [-> | ->]; simpl; eauto.
  - intros -> ->. simpl. eauto.
Qed.

Lemma C7_small_rotation_is_steering_witness :
  (5 <= 10 /\ Z.lor (Z.shiftl 0 8) 5 = 5) /\
  fst (NavconState._decode (NavconState.mkSCSPacket 147 0 5 2))
    = NavconState.STEER /\
  exists desc,
    NavconTester.decode_navcon_response (NavconTester.mkSCSPacket 147 0 5 2)
      = Ok (NavconTester.ACT_STEERING_CORRECTION, desc).
Proof.
  split; [split; [lia | reflexivity]|].
  apply (C7_small_rotation_is_steering 147 0 5 2);
    [left; reflexivity | reflexivity | reflexivity | vm_compute; discriminate].
Defined.

Example decode_steer_left :
  NavconState._decode (NavconState.mkSCSPacket 147 0 5 2)
    = (NavconState.STEER, "Left steer 5°") /\
  NavconTester.decode_navcon_response (NavconTester.mkSCSPacket 147 0 5 2)
    = Ok (NavconTester.ACT_STEERING_CORRECTION, "Steering Correction 5° Left").
Proof. split; vm_compute; reflexivity. Qed.

Example decode_right_360 :
  NavconState._decode (NavconState.mkSCSPacket 147 1 104 3)
    = (NavconState.ROTATE_R, "Right 360°") /\
  NavconTester.decode_navcon_response (NavconTester.mkSCSPacket 147 1 104 3)
    = Ok (NavconTester.ACT_TURN_RIGHT, "360° Right Turn").
Proof. split; vm_compute; reflexivity. Qed.

Example decode_not_navcon :
  NavconTester.decode_navcon_response (NavconTester.mkSCSPacket 177 0 5 2)
    = Ok (NavconTester.ACT_ERROR_STOP, "Invalid NAVCON packet format").
Proof. vm_compute. reflexivity. Qed.

(** ** Pure-tone validator *)

Import PureTone.

Lemma on_tone_end_waiting_first (s : SystemState) (e : ToneEvent) :
  on_tone_end (init s) e = (mkValidator (as_first e) s, None).
Proof. reflexivity. Qed.

(** Along a stream in which no tone has a successor within its window, the
    validator never accepts and the system state stays as it was. *)
Lemma run_isolated_never_accepts (events : list ToneEvent) :
  forall (v : Validator) (t : Z),
    (phase v = WAITING_FIRST \/
     exists first deadline,
       phase v = WAITING_SECOND first deadline /\ deadline <= t + 2000) ->
    isolated t events ->
    ~ In (Some ACCEPT) (snd (run v events)) /\
    sys_state (fst (run v events)) = sys_state v.
Proof.
  induction events as [| e rest IH]; intros v t Hph Hiso; simpl.
  - split; [tauto | reflexivity].
  - destruct Hiso as [Hlate Hrest].
    assert (Hstep : exists o, o <> Some ACCEPT /\
              on_tone_end v e = (mkValidator (as_first e) (sys_state v), o)).
    { unfold on_tone_end.
      destruct Hph as [-> | (first & deadline & -> & Hd)].
      - exists None. split; [discriminate | reflexivity].
      - destruct (Z.ltb_spec deadline (tone_end e)); [|lia].
        exists (Some REJECT). split; [discriminate | reflexivity]. }
    destruct Hstep as (o & Ho & ->).
    specialize (IH (mkValidator (as_first e) (sys_state v)) (tone_end e)).
    destruct (run (mkValidator (as_first e) (sys_state v)) rest) as [v2 os].
    simpl in *.
    assert (Hph' : as_first e = WAITING_FIRST \/
              exists first deadline,
                as_first e = WAITING_SECOND first deadline /\
                deadline <= tone_end e + 2000).
    { unfold as_first. destruct (valid_duration (duration_ms e));
        [right; eexists _, _; split; [reflexivity | lia] | left; reflexivity]. }
    destruct (IH Hph' Hrest) as [Hin Hs].
    split; [|exact Hs].
    intros [Heq | Hin']; [congruence | tauto].
Qed.

(** C9.  A stream of exactly one tone-end event, whatever the start time
    and duration of the tone and whatever the system state, produces no
    ACCEPT and leaves the system state (MAZE or SOS) untoggled: the
    validator is left waiting for a second tone, or still for a first
    one. *)
Theorem C9_single_tone_never_accepts (s : SystemState) (e : ToneEvent) :
  ~ In (Some ACCEPT) (snd (run (init s) [e])) /\
  sys_state (fst (run (init s) [e])) = s /\
  phase (fst (run (init s) [e]))
    = (if valid_duration (duration_ms e)
       then WAITING_SECOND e (tone_end e + 2000)
       else WAITING_FIRST).
Proof.
  unfold run. rewrite on_tone_end_waiting_first. simpl.
  split; [intros [H | []]; discriminate|].
  split; reflexivity.
Qed.

Example tone_timeline_accept :
  run (init MAZE) [mkToneEvent (-800) 800; mkToneEvent 1000 900]
    = (mkValidator WAITING_FIRST SOS, [None; Some ACCEPT]).
Proof. reflexivity. Qed.

Example tone_timeline_timeout :
  run (init MAZE) [mkToneEvent (-800) 800; mkToneEvent 1600 900]
    = (mkValidator (WAITING_SECOND (mkToneEvent 1600 900) 4500) MAZE,
       [None; Some REJECT]).
Proof. reflexivity. Qed.

(** * Further properties of the sources *)

(** ** scs_protocol.py: control byte, packets, color bytes *)

Lemma land_3_mod (x : Z) : Z.land x 3 = x mod 4.
Proof. apply (Z.land_ones x 2). lia. Qed.

Lemma land_15_mod (x : Z) : Z.land x 15 = x mod 16.
Proof. apply (Z.land_ones x 4). lia. Qed.

Lemma land_255_mod (x : Z) : Z.land x 255 = x mod 256.
Proof. apply (Z.land_ones x 8). lia. Qed.

Lemma shiftr_div (x : Z) (n : Z) : 0 <= n -> Z.shiftr x n = x / 2 ^ n.
Proof. intros H. apply Z.shiftr_div_pow2. exact H. Qed.

Lemma SystemState_of_land (x : Z) :
  exists s, SystemState_of (Z.land x 3) = Ok s /\ SystemState_value s = Z.land x 3.
Proof.
  destruct (land_3_cases x) as [-> | [-> | [-> | ->]]];
    eexists; split; reflexivity.
Qed.

Lemma SubsystemID_of_land (x : Z) :
  exists s, SubsystemID_of (Z.land x 3) = Ok s /\ SubsystemID_value s = Z.land x 3.
Proof.
  destruct (land_3_cases x) as [-> | [-> | [-> | ->]]];
    eexists; split; reflexivity.
Qed.

(** X1.  Parsing any integer as a control byte succeeds with an ist in [0,15],
    and building the control byte back from the three parts gives the
    integer modulo 256: the byte itself when it is in [0,255]. *)
Theorem parse_then_create_control_byte (c : Z) :
  exists s sub ist,
    parse_control_byte c = Ok (s, sub, ist) /\
    0 <= ist <= 15 /\
    create_control_byte s sub ist = Ok (c mod 256).
Proof.
  unfold parse_control_byte.
  destruct (SystemState_of_land (Z.shiftr c 6)) as (s & Hs & Hsv).
  destruct (SubsystemID_of_land (Z.shiftr c 4)) as (sub & Hsub & Hsubv).
  rewrite Hs, Hsub. simpl.
  exists s, sub, (Z.land c 15).
  split; [reflexivity|].
  rewrite land_15_mod.
  assert (Hr : 0 <= c mod 16 <= 15) by (pose proof (Z.mod_pos_bound c 16); lia).
  split; [exact Hr|].
  rewrite (proj2 (create_control_byte_value s sub (c mod 16)) Hr).
  f_equal. rewrite Hsv, Hsubv, !land_3_mod, !shiftr_div by lia.
  change (2 ^ 6) with 64. change (2 ^ 4) with 16.
  Z.div_mod_to_equations. lia.
Qed.

(** X2.  [from_bytes] accepts a bytes object exactly when it has four bytes, and
    [to_bytes] of the packet it makes gives the four bytes back; any other
    length raises the ValueError that names the length. *)
Theorem from_bytes_then_to_bytes (data : list Z) :
  Forall (fun b => 0 <= b <= 255) data ->
  (length data = 4%nat -> (from_bytes data ≫= to_bytes) = Ok data) /\
  (length data <> 4%nat ->
   from_bytes data
     = Raise (ValueError ("Packet must be 4 bytes, got "
                          +:+ str (Z.of_nat (length data))))).
Proof.
  intros Hall. split.
  - intros Hlen.
    destruct data as [| b0 [| b1 [| b2 [| b3 [| b4 rest]]]]]; try discriminate.
    inversion Hall as [| ? ? H0 Hall1]; subst.
    inversion Hall1 as [| ? ? H1 Hall2]; subst.
    inversion Hall2 as [| ? ? H2 Hall3]; subst.
    inversion Hall3 as [| ? ? H3 _]; subst.
    unfold from_bytes. rewrite SCSPacket_new_ok by assumption. simpl.
    apply to_bytes_ok; assumption.
  - intros Hlen.
    destruct data as [| b0 [| b1 [| b2 [| b3 [| b4 rest]]]]];
      try reflexivity.
    contradiction Hlen; reflexivity.
Qed.

Lemma from_bytes_then_to_bytes_witness :
  Forall (fun b => 0 <= b <= 255) [177; 0; 16; 0] /\
  (from_bytes [177; 0; 16; 0] ≫= to_bytes) = Ok [177; 0; 16; 0].
Proof.
  assert (H : Forall (fun b => 0 <= b <= 255) [177; 0; 16; 0])
    by (repeat constructor; lia).
  split; [exact H|].
  apply (from_bytes_then_to_bytes [177; 0; 16; 0] H). reflexivity.
Defined.

(** X3.  A packet that the constructor accepted survives [to_bytes] followed by
    [from_bytes] unchanged. *)
Theorem to_bytes_then_from_bytes (c d1 d0 de : Z) (p : SCSPacket) :
  SCSPacket_new c d1 d0 de = Ok p ->
  (to_bytes p ≫= from_bytes) = Ok p.
Proof.
  intros H. apply SCSPacket_new_inv in H as (-> & Hc & H1 & H0 & He).
  rewrite to_bytes_ok by assumption. simpl.
  apply SCSPacket_new_ok; assumption.
Qed.

Lemma to_bytes_then_from_bytes_witness :
  SCSPacket_new 177 0 16 0 = Ok (mkSCSPacket 177 0 16 0) /\
  (to_bytes (mkSCSPacket 177 0 16 0) ≫= from_bytes) = Ok (mkSCSPacket 177 0 16 0).
Proof.
  split; [reflexivity|].
  apply (to_bytes_then_from_bytes 177 0 16 0). reflexivity.
Defined.

(** X4.  Whatever the three colors, [encode_color_byte] returns a value that
    fits a byte (at most 219), so [make_maze_ss_color_packet] never raises
    on it and carries it in dat0 of a MAZE:SS:1 packet. *)
Theorem color_packet_always_built (s1 s2 s3 : SensorColor) :
  0 <= encode_color_byte s1 s2 s3 <= 219 /\
  make_maze_ss_color_packet (encode_color_byte s1 s2 s3)
    = Ok (mkSCSPacket 177 0 (encode_color_byte s1 s2 s3) 0) /\
  parse_control_byte 177 = Ok (MAZE, SS, 1).
Proof.
  destruct s1, s2, s3; vm_compute; intuition congruence.
Qed.

Lemma color_bits_decoded (x : Z) :
  Z.land (color_bits (default WHITE (bits_to_color !! Z.land x 3))) 3
  = Z.land x 3.
Proof.
  destruct (land_3_cases x) as [-> | [-> | [-> | ->]]]; reflexivity.
Qed.

Lemma testbit_3 (n : Z) : Z.testbit 3 n = (n =? 0) || (n =? 1).
Proof.
  destruct n as [| p | p]; try reflexivity.
  destruct p as [p | p |]; try reflexivity; destruct p; reflexivity.
Qed.

Lemma testbit_219 (n : Z) :
  Z.testbit 219 n
  = (n =? 0) || (n =? 1) || (n =? 3) || (n =? 4) || (n =? 6) || (n =? 7).
Proof.
  destruct n as [| p | p]; try reflexivity.
  do 4 (destruct p as [p | p |]; try reflexivity).
Qed.

(** X5.  Decoding any integer and encoding the three colors again keeps exactly
    the six bits the layout uses: the result is [color_byte & 0xDB], so
    bits 2 and 5 and everything above bit 7 are dropped. *)
Theorem decode_then_encode_color_byte (color_byte : Z) :
  (let '(s1, s2, s3) := decode_color_byte color_byte in
   encode_color_byte s1 s2 s3) = Z.land color_byte 219.
Proof.
  unfold decode_color_byte, encode_color_byte.
  rewrite !color_bits_decoded.
  apply Z.bits_inj'. intros n Hn.
  rewrite !Z.lor_spec, !Z.land_spec, !Z.shiftl_spec by lia.
  rewrite testbit_219, !testbit_3.
  destruct (Z.ltb_spec n 3) as [H3 | H3].
  - rewrite (Z.testbit_neg_r _ (n - 6)), (Z.testbit_neg_r _ (n - 3)) by lia.
    simpl.
    destruct (Z.eqb_spec n 0), (Z.eqb_spec n 1), (Z.eqb_spec n 3),
      (Z.eqb_spec n 4), (Z.eqb_spec n 6), (Z.eqb_spec n 7);
      try lia; simpl; rewrite ?andb_true_r, ?andb_false_r; reflexivity.
  - destruct (Z.ltb_spec n 6) as [H6 | H6].
    + rewrite (Z.testbit_neg_r _ (n - 6)) by lia.
      rewrite !Z.land_spec, Z.shiftr_spec, testbit_3 by lia.
      replace (n - 3 + 3) with n by lia.
      destruct (Z.eqb_spec n 0), (Z.eqb_spec n 1), (Z.eqb_spec n 3),
        (Z.eqb_spec n 4), (Z.eqb_spec n 6), (Z.eqb_spec n 7),
        (Z.eqb_spec (n - 3) 0), (Z.eqb_spec (n - 3) 1);
        try lia; simpl; rewrite ?andb_true_r, ?andb_false_r, ?orb_false_r;
        reflexivity.
    + rewrite !Z.land_spec, !Z.shiftr_spec, !testbit_3 by lia.
      replace (n - 3 + 3) with n by lia.
      replace (n - 6 + 6) with n by lia.
      destruct (Z.eqb_spec n 0), (Z.eqb_spec n 1), (Z.eqb_spec n 3),
        (Z.eqb_spec n 4), (Z.eqb_spec n 6), (Z.eqb_spec n 7),
        (Z.eqb_spec (n - 3) 0), (Z.eqb_spec (n - 3) 1),
        (Z.eqb_spec (n - 6) 0), (Z.eqb_spec (n - 6) 1);
        try lia; simpl; rewrite ?andb_true_r, ?andb_false_r, ?orb_false_r;
        reflexivity.
Qed.

(** X6.  For the byte of an encoded triple, [_decode_color_packet] answers
    "All RED (End-of-Maze)" exactly when the three sensors are RED, and
    "All WHITE" exactly when each sensor is WHITE or BLACK. *)
Theorem color_description_special_cases (s1 s2 s3 : SensorColor)
    (ctrl d1 de : Z) :
  let desc := _decode_color_packet
                (mkSCSPacket ctrl d1 (encode_color_byte s1 s2 s3) de) in
  (desc = "All RED (End-of-Maze)" <-> s1 = RED /\ s2 = RED /\ s3 = RED) /\
  (desc = "All WHITE" <->
   (s1 = WHITE \/ s1 = BLACK) /\ (s2 = WHITE \/ s2 = BLACK) /\
   (s3 = WHITE \/ s3 = BLACK)).
Proof.
  destruct s1, s2, s3; vm_compute;
    (split; split;
     [ intros H; first [discriminate H | auto]
     | intros (H1 & H2 & H3); first [reflexivity | intuition discriminate]
     | intros H; first [discriminate H | auto]
     | intros (H1 & H2 & H3); first [reflexivity | intuition discriminate] ]).
Qed.

(** X7.  The description of an encoded triple never mentions BLACK, and never
    reports RED on an edge sensor (S1 or S3): a RED edge reading shows at
    most through the numeric color code. *)
Theorem color_description_omissions (s1 s2 s3 : SensorColor)
    (ctrl d1 de : Z) :
  let desc := _decode_color_packet
                (mkSCSPacket ctrl d1 (encode_color_byte s1 s2 s3) de) in
  contains "BLACK" desc = false /\
  contains "S1=RED" desc = false /\
  contains "S3=RED" desc = false.
Proof. destruct s1, s2, s3; vm_compute; auto. Qed.

Example color_description_edge_red :
  _decode_color_packet (mkSCSPacket 177 0 (encode_color_byte RED WHITE WHITE) 0)
    = "Color code: 1" /\
  _decode_color_packet (mkSCSPacket 177 0 (encode_color_byte RED GREEN BLUE) 0)
    = "S2=GREEN, S3=BLUE".
Proof. split; vm_compute; reflexivity. Qed.

(** X8.  [make_maze_ss_angle_packet] raises ValueError exactly when the angle is
    outside [0,255] (so a negative angle cannot be packed this way), and
    otherwise returns the MAZE:SS:2 packet with the angle itself in dat1. *)
Theorem make_maze_ss_angle_packet_range (angle : Z) :
  (raises_ValueError (make_maze_ss_angle_packet angle) = true
   <-> ~ (0 <= angle <= 255)) /\
  (make_maze_ss_angle_packet angle = Ok (mkSCSPacket 178 angle 0 0)
   <-> 0 <= angle <= 255) /\
  parse_control_byte 178 = Ok (MAZE, SS, 2).
Proof.
  unfold make_maze_ss_angle_packet.
  change (create_control_byte MAZE SS 2) with (Ok (A := Z) 178). simpl.
  split; [|split; [|reflexivity]].
  - rewrite SCSPacket_new_raises. intuition lia.
  - split.
    + intros H. apply SCSPacket_new_inv in H. tauto.
    + intros H. apply SCSPacket_new_ok; lia.
Qed.

(** X9.  [make_cal_mdps_packet] raises ValueError exactly when ist is outside
    [0,15], or ist is 0 and the speed is outside [0,255], or ist is 1 and
    the angle is outside [0,255].  For every other ist the speed and the
    angle are ignored, in range or not. *)
Theorem make_cal_mdps_packet_errors (ist speed angle : Z) :
  (raises_ValueError (make_cal_mdps_packet ist speed angle) = true
   <-> ~ (0 <= ist <= 15) \/
       (ist = 0 /\ ~ (0 <= speed <= 255)) \/
       (ist = 1 /\ ~ (0 <= angle <= 255))) /\
  (2 <= ist <= 15 ->
   make_cal_mdps_packet ist speed angle = Ok (mkSCSPacket (96 + ist) 0 0 0)).
Proof.
  unfold make_cal_mdps_packet. split.
  - destruct (decide (0 <= ist <= 15)) as [Hist | Hist].
    + destruct (create_control_byte_ok CAL MDPS ist Hist)
        as (c & Hc & Hr & Hv & _).
      rewrite Hc. simpl.
      destruct (Z.eqb_spec ist 0) as [-> | H0].
      { rewrite SCSPacket_new_raises. intuition lia. }
      destruct (Z.eqb_spec ist 1) as [-> | H1].
      { rewrite SCSPacket_new_raises. intuition lia. }
      rewrite SCSPacket_new_raises. intuition lia.
    + pose proof (proj2 (create_control_byte_raises CAL MDPS ist) Hist) as Hn.
      destruct (create_control_byte CAL MDPS ist) as [c | e]; simpl in *;
        [discriminate|].
      split; [intros _; left; exact Hist | intros _; exact Hn].
  - intros Hist.
    assert (Hist' : 0 <= ist <= 15) by lia.
    destruct (create_control_byte_ok CAL MDPS ist Hist')
      as (c & Hc & Hr & Hv & _).
    rewrite Hc. simpl. simpl in Hv.
    destruct (Z.eqb_spec ist 0); [lia|].
    destruct (Z.eqb_spec ist 1); [lia|].
    replace (96 + ist) with c by lia.
    apply SCSPacket_new_ok; lia.
Qed.

Lemma make_cal_mdps_packet_errors_witness :
  2 <= 5 <= 15 /\
  make_cal_mdps_packet 5 9999 (-1) = Ok (mkSCSPacket (96 + 5) 0 0 0).
Proof.
  split; [lia|]. apply (make_cal_mdps_packet_errors 5 9999 (-1)). lia.
Defined.

(** ** scs_protocol.py: the transition validator *)

(** X10.  With a conditions dict in which no key is true (the empty dict in
    particular), no transition at all is valid. *)
Theorem no_condition_no_transition (conditions_met : gmap string bool) :
  (forall key, conditions_met !! key <> Some true) ->
  forall a b, fst (is_valid_transition a b conditions_met) = false.
Proof.
  intros Hnone a b.
  destruct (fst (is_valid_transition a b conditions_met)) eqn:Hv;
    [|reflexivity].
  unfold is_valid_transition, dict_get in Hv.
  pose proof (Hnone "touch_sensor") as H1.
  pose proof (Hnone "ss_eoc") as H2.
  pose proof (Hnone "mdps_eoc") as H3.
  pose proof (Hnone "pure_tone") as H4.
  pose proof (Hnone "end_of_maze") as H5.
  destruct a, b; simpl in Hv; try discriminate;
    repeat match type of Hv with
           | context [conditions_met !! ?k] =>
               destruct (conditions_met !! k) as [[]|]; simpl in Hv
           end; congruence.
Qed.

Lemma no_condition_no_transition_witness :
  (forall key, (∅ : gmap string bool) !! key <> Some true) /\
  fst (is_valid_transition IDLE CAL ∅) = false.
Proof.
  assert (H : forall key, (∅ : gmap string bool) !! key <> Some true)
    by (intros key; rewrite lookup_empty; discriminate).
  split; [exact H|].
  apply (no_condition_no_transition ∅ H).
Defined.

(** X11.  Whatever the conditions, a state is never a valid successor of itself,
    CAL is entered only from IDLE, SOS only from MAZE, and IDLE only from
    MAZE. *)
Theorem transition_graph_shape (conditions_met : gmap string bool)
    (a b : SystemState) :
  valid_step conditions_met a b ->
  a <> b /\ (b = CAL -> a = IDLE) /\ (b = SOS -> a = MAZE) /\
  (b = IDLE -> a = MAZE).
Proof.
  unfold valid_step, is_valid_transition, dict_get.
  destruct a, b; simpl; intros Hv; try discriminate;
    repeat split; congruence.
Qed.

Lemma transition_graph_shape_witness :
  valid_step all_conditions MAZE SOS /\
  MAZE <> SOS /\ (SOS = CAL -> MAZE = IDLE) /\ (SOS = SOS -> MAZE = MAZE) /\
  (SOS = IDLE -> MAZE = MAZE).
Proof.
  assert (H : valid_step all_conditions MAZE SOS) by reflexivity.
  split; [exact H|].
  apply (transition_graph_shape all_conditions MAZE SOS H).
Defined.

(** X12.  When every condition holds, every state can be reached from every
    state through valid transitions: the validator leaves no dead end. *)
Theorem transitions_strongly_connected (a b : SystemState) :
  rtc (valid_step all_conditions) a b.
Proof.
  assert (H1 : valid_step all_conditions IDLE CAL) by reflexivity.
  assert (H2 : valid_step all_conditions CAL MAZE) by reflexivity.
  assert (H3 : valid_step all_conditions MAZE SOS) by reflexivity.
  assert (H4 : valid_step all_conditions SOS MAZE) by reflexivity.
  assert (H5 : valid_step all_conditions MAZE IDLE) by reflexivity.
  destruct a, b;
    eauto 8 using rtc_refl, rtc_l.
Qed.

(** ** NaVCON_Tester.py: building and describing the packets sent *)

Lemma land_7_mod (x : Z) : Z.land x 7 = x mod 8.
Proof. apply (Z.land_ones x 3). lia. Qed.

Lemma tester_subsystem_cases (p : NavconTester.SCSPacket) :
  NavconTester.subsystem_id p = Ok NavconTester.SUB_HUB \/
  NavconTester.subsystem_id p = Ok NavconTester.SUB_SNC \/
  NavconTester.subsystem_id p = Ok NavconTester.SUB_MDPS \/
  NavconTester.subsystem_id p = Ok NavconTester.SUB_SS.
Proof.
  unfold NavconTester.subsystem_id.
  destruct (land_3_cases (Z.shiftr (NavconTester.control p) 4))
    as [-> | [-> | [-> | ->]]]; simpl; auto.
Qed.

Lemma tester_system_state_ok (p : NavconTester.SCSPacket) :
  exists s, NavconTester.system_state p = Ok s.
Proof.
  unfold NavconTester.system_state.
  destruct (land_3_cases (Z.shiftr (NavconTester.control p) 6))
    as [-> | [-> | [-> | ->]]]; simpl; eauto.
Qed.

Lemma tester_ColorType_of_land (x : Z) :
  (Z.land x 7 <= 4 /\ exists c, NavconTester.ColorType_of (Z.land x 7) = Ok c) \/
  (5 <= Z.land x 7 /\
   exists msg, NavconTester.ColorType_of (Z.land x 7) = Raise (ValueError msg)).
Proof.
  rewrite land_7_mod. pose proof (Z.mod_pos_bound x 8 ltac:(lia)) as Hb.
  assert (Hc : x mod 8 = 0 \/ x mod 8 = 1 \/ x mod 8 = 2 \/ x mod 8 = 3 \/
               x mod 8 = 4 \/ x mod 8 = 5 \/ x mod 8 = 6 \/ x mod 8 = 7) by lia.
  destruct Hc as [-> | [-> | [-> | [-> | [-> | [-> | [-> | ->]]]]]]];
    simpl; first [left; split; [lia | eauto] | right; split; [lia | eauto]].
Qed.

(** X13.  The control byte made by [make_control_byte] reads back, through the
    three properties of the packet, as the state and subsystem given and as
    the internal state modulo 16: an internal state above 15 is wrapped, not
    refused. *)
Theorem make_control_byte_reads_back (sys : NavconTester.SystemState)
    (sub : NavconTester.SubsystemID) (ist d1 d0 de : Z) :
  let p := NavconTester.mkSCSPacket
             (NavconTester.make_control_byte sys sub ist) d1 d0 de in
  NavconTester.system_state p = Ok sys /\
  NavconTester.subsystem_id p = Ok sub /\
  NavconTester.internal_state p = ist mod 16 /\
  0 <= NavconTester.make_control_byte sys sub ist <= 255.
Proof.
  unfold NavconTester.system_state, NavconTester.subsystem_id,
    NavconTester.internal_state, NavconTester.make_control_byte. simpl.
  rewrite (land_15_mod ist).
  pose proof (Z.mod_pos_bound ist 16 ltac:(lia)) as Hb.
  destruct (nibble_nat (ist mod 16) ltac:(lia)) as (n & -> & Hn).
  do 16 (destruct n as [| n];
         [destruct sys, sub; vm_compute; intuition congruence |]).
  lia.
Qed.

(** X14.  Describing the packet made by [create_color_packet] names the three
    colors given, for all 125 triples: the 9-bit layout over dat1 and dat0
    keeps BLACK. *)
Theorem describe_color_packet (s1 s2 s3 : NavconTester.ColorType) :
  NavconTester.describe_sent_packet (NavconTester.create_color_packet s1 s2 s3)
  = Ok ("Colors: S1=" +:+ NavconTester.ColorType_name s1
        +:+ " S2=" +:+ NavconTester.ColorType_name s2
        +:+ " S3=" +:+ NavconTester.ColorType_name s3).
Proof. destruct s1, s2, s3; vm_compute; reflexivity. Qed.

(** X15.  Describing the packet made by [create_angle_packet] shows the angle
    given when it is in [-128,127]; an angle of 128 or more is shown 256
    lower, an angle below -128 is shown 256 higher. *)
Theorem describe_angle_packet (angle : Z) :
  NavconTester.describe_sent_packet (NavconTester.create_angle_packet angle)
  = Ok ("Angle: "
        +:+ str (if angle <? -128 then angle + 256
                 else if angle <? 128 then angle else angle - 256)
        +:+ "°").
Proof.
  unfold NavconTester.describe_sent_packet, NavconTester.create_angle_packet.
  change (NavconTester.make_control_byte NavconTester.SYS_MAZE
            NavconTester.SUB_SS 2) with 178.
  unfold NavconTester.subsystem_id, NavconTester.internal_state. simpl.
  destruct (Z.geb_spec angle 0) as [Hge | Hlt].
  - destruct (Z.ltb_spec angle (-128)); [lia|].
    destruct (Z.ltb_spec angle 128); reflexivity.
  - destruct (Z.ltb_spec angle (-128)).
    + destruct (Z.ltb_spec (256 + angle) 128); [|lia].
      replace (256 + angle) with (angle + 256) by lia. reflexivity.
    + destruct (Z.ltb_spec angle 128); [|lia].
      destruct (Z.ltb_spec (256 + angle) 128); [lia|].
      replace (256 + angle - 256) with angle by lia. reflexivity.
Qed.

Example describe_angle_examples :
  NavconTester.describe_sent_packet (NavconTester.create_angle_packet (-40))
    = Ok "Angle: -40°" /\
  NavconTester.describe_sent_packet (NavconTester.create_angle_packet 200)
    = Ok "Angle: -56°".
Proof. split; vm_compute; reflexivity. Qed.

(** Whatever the packet, [describe_sent_packet] either returns or raises a
    ValueError: no other exception can leave it. *)
Lemma describe_sent_packet_ok_or_value_error (p : NavconTester.SCSPacket) :
  is_ok (NavconTester.describe_sent_packet p)
  = negb (raises_ValueError (NavconTester.describe_sent_packet p)).
Proof.
  unfold NavconTester.describe_sent_packet.
  set (color_data := Z.lor (Z.shiftl (NavconTester.dat1 p) 8)
                           (NavconTester.dat0 p)).
  destruct (tester_system_state_ok p) as (sys & Hsys).
  rewrite Hsys.
  destruct (tester_subsystem_cases p) as [Hs | [Hs | [Hs | Hs]]];
    rewrite Hs; simpl; try reflexivity.
  - destruct (NavconTester.internal_state p =? 0); reflexivity.
  - destruct (NavconTester.internal_state p =? 1).
    + destruct (tester_ColorType_of_land (Z.shiftr color_data 6))
        as [(_ & c1 & ->) | (_ & m1 & ->)]; simpl; [|reflexivity].
      destruct (tester_ColorType_of_land (Z.shiftr color_data 3))
        as [(_ & c2 & ->) | (_ & m2 & ->)]; simpl; [|reflexivity].
      destruct (tester_ColorType_of_land color_data)
        as [(_ & c3 & ->) | (_ & m3 & ->)]; reflexivity.
    + destruct (NavconTester.internal_state p =? 2); reflexivity.
Qed.

(** The packets on which [describe_sent_packet] raises a ValueError. *)
Lemma describe_sent_packet_raises_iff (p : NavconTester.SCSPacket) :
  let color_data := Z.lor (Z.shiftl (NavconTester.dat1 p) 8)
                          (NavconTester.dat0 p) in
  raises_ValueError (NavconTester.describe_sent_packet p) = true <->
  NavconTester.subsystem_id p = Ok NavconTester.SUB_SS /\
  NavconTester.internal_state p = 1 /\
  (5 <= Z.land (Z.shiftr color_data 6) 7 \/
   5 <= Z.land (Z.shiftr color_data 3) 7 \/
   5 <= Z.land color_data 7).
Proof.
  intros color_data. unfold NavconTester.describe_sent_packet.
  fold color_data.
  destruct (tester_system_state_ok p) as (sys & Hsys).
  rewrite Hsys.
  destruct (tester_subsystem_cases p) as [Hs | [Hs | [Hs | Hs]]];
    rewrite Hs; simpl.
  - split; [discriminate | intros (H & _); discriminate].
  - split; [discriminate | intros (H & _); discriminate].
  - destruct (NavconTester.internal_state p =? 0); simpl;
      (split; [discriminate | intros (H & _); discriminate]).
  - destruct (Z.eqb_spec (NavconTester.internal_state p) 1) as [H1 | H1].
    + destruct (tester_ColorType_of_land (Z.shiftr color_data 6))
        as [(Ha & c1 & ->) | (Ha & m1 & ->)]; simpl;
        [|split; [intros _; auto | reflexivity]].
      destruct (tester_ColorType_of_land (Z.shiftr color_data 3))
        as [(Hb & c2 & ->) | (Hb & m2 & ->)]; simpl;
        [|split; [intros _; auto | reflexivity]].
      destruct (tester_ColorType_of_land color_data)
        as [(Hc & c3 & ->) | (Hc & m3 & ->)]; simpl;
        [|split; [intros _; auto | reflexivity]].
      split; [discriminate | intros (_ & _ & H); lia].
    + destruct (NavconTester.internal_state p =? 2); simpl;
        (split; [discriminate | intros (_ & H & _); contradiction]).
Qed.

(** X16.  [describe_sent_packet] raises (a ValueError from [ColorType]) exactly
    on a packet from SS with internal state 1 in which one of the three
    3-bit color fields of [(dat1 << 8) | dat0] is 5, 6 or 7; on every other
    packet, and only there, it returns a description: no other exception
    is ever raised. *)
Theorem describe_sent_packet_raises (p : NavconTester.SCSPacket) :
  let color_data := Z.lor (Z.shiftl (NavconTester.dat1 p) 8)
                          (NavconTester.dat0 p) in
  let bad_color_packet :=
    NavconTester.subsystem_id p = Ok NavconTester.SUB_SS /\
    NavconTester.internal_state p = 1 /\
    (5 <= Z.land (Z.shiftr color_data 6) 7 \/
     5 <= Z.land (Z.shiftr color_data 3) 7 \/
     5 <= Z.land color_data 7) in
  (raises_ValueError (NavconTester.describe_sent_packet p) = true
   <-> bad_color_packet) /\
  (is_ok (NavconTester.describe_sent_packet p) = true
   <-> ~ bad_color_packet) /\
  ((exists text, NavconTester.describe_sent_packet p = Ok text)
   <-> ~ bad_color_packet).
Proof.
  intros color_data bad_color_packet.
  pose proof (describe_sent_packet_raises_iff p) as Hr.
  pose proof (describe_sent_packet_ok_or_value_error p) as Ho.
  simpl in Hr. fold color_data in Hr. fold bad_color_packet in Hr.
  assert (Hok : is_ok (NavconTester.describe_sent_packet p) = true
                <-> ~ bad_color_packet).
  { rewrite Ho, <- Hr.
    destruct (raises_ValueError (NavconTester.describe_sent_packet p));
      simpl; split; congruence. }
  split; [exact Hr|]. split; [exact Hok|].
  rewrite <- Hok.
  destruct (NavconTester.describe_sent_packet p) as [text | e]; simpl.
  - split; [reflexivity | eauto].
  - split; [intros [text H]; discriminate | discriminate].
Qed.

Example describe_sent_packet_generic :
  NavconTester.describe_sent_packet (NavconTester.mkSCSPacket 179 0 0 0)
    = Ok "SYS_MAZE:SUB_SS:IST3".
Proof. vm_compute. reflexivity. Qed.

Example describe_sent_packet_bad_color :
  NavconTester.describe_sent_packet (NavconTester.mkSCSPacket 177 0 5 0)
    = Raise (ValueError "5 is not a valid ColorType").
Proof. vm_compute. reflexivity. Qed.

(** X17.  [decode_navcon_response] never raises; the action it returns is never
    ACT_DIFFERENTIAL_STEER nor ACT_WALL_FOLLOW_TURN, and it is
    ACT_ERROR_STOP exactly when the packet is not from SNC with internal
    state 3 or its dec is not 0, 1, 2 or 3. *)
Theorem decode_navcon_response_actions (p : NavconTester.SCSPacket) :
  exists a desc,
    NavconTester.decode_navcon_response p = Ok (a, desc) /\
    a <> NavconTester.ACT_DIFFERENTIAL_STEER /\
    a <> NavconTester.ACT_WALL_FOLLOW_TURN /\
    (a = NavconTester.ACT_ERROR_STOP <->
     NavconTester.subsystem_id p <> Ok NavconTester.SUB_SNC \/
     NavconTester.internal_state p <> 3 \/
     ~ (0 <= NavconTester.dec p <= 3)).
Proof.
  unfold NavconTester.decode_navcon_response.
  destruct (tester_subsystem_cases p) as [Hs | [Hs | [Hs | Hs]]];
    rewrite Hs; simpl;
    try (eexists _, _; split; [reflexivity|];
         repeat split; try discriminate; auto; intros _; left; discriminate).
  destruct (Z.eqb_spec (NavconTester.internal_state p) 3) as [H3 | H3]; simpl;
    [|eexists _, _; split; [reflexivity|];
      repeat split; try discriminate; auto].
  set (rotation := Z.lor (Z.shiftl (NavconTester.dat1 p) 8)
                         (NavconTester.dat0 p)).
  destruct (Z.eqb_spec (NavconTester.dec p) 0) as [Hd0 | Hd0].
  { destruct ((NavconTester.dat1 p =? 0) && (NavconTester.dat0 p =? 0));
      eexists _, _; (split; [reflexivity|]);
      repeat split; try discriminate; intros [H | [H | H]]; try congruence; lia. }
  destruct (Z.eqb_spec (NavconTester.dec p) 1) as [Hd1 | Hd1].
  { eexists _, _; split; [reflexivity|].
    repeat split; try discriminate; intros [H | [H | H]]; try congruence; lia. }
  destruct (Z.eqb_spec (NavconTester.dec p) 2) as [Hd2 | Hd2].
  { destruct (rotation =? 180); [|destruct (rotation =? 360);
                                   [|destruct (rotation <=? 10)]];
      eexists _, _; (split; [reflexivity|]);
      repeat split; try discriminate; intros [H | [H | H]]; try congruence; lia. }
  destruct (Z.eqb_spec (NavconTester.dec p) 3) as [Hd3 | Hd3].
  { destruct (rotation =? 180); [|destruct (rotation <=? 10)];
      eexists _, _; (split; [reflexivity|]);
      repeat split; try discriminate; intros [H | [H | H]]; try congruence; lia. }
  eexists _, _; split; [reflexivity|].
  repeat split; try discriminate. intros _. right. right. lia.
Qed.

(** ** Navcon_state.py: packets with masked fields *)

Lemma between_mod_256 (x : Z) : between 0 (x mod 256) 255 = true.
Proof.
  apply between_spec. pose proof (Z.mod_pos_bound x 256 ltac:(lia)). lia.
Qed.

(** X18.  [SCSPacket.to_bytes] of this file never raises, whatever integers the
    four fields hold: each byte is the field modulo 256. *)
Theorem state_to_bytes_wraps (p : NavconState.SCSPacket) :
  NavconState.to_bytes p
  = Ok [NavconState.control p mod 256; NavconState.dat1 p mod 256;
        NavconState.dat0 p mod 256; NavconState.dec p mod 256].
Proof.
  unfold NavconState.to_bytes, bytes_of. rewrite !land_255_mod. simpl.
  rewrite !between_mod_256. reflexivity.
Qed.

Lemma split_16_bits (x : Z) :
  Z.lor (Z.shiftl (Z.land (Z.shiftr x 8) 255) 8) (Z.land x 255)
  = x mod 65536.
Proof.
  change 65536 with (2 ^ 16). rewrite <- Z.land_ones by lia.
  change 255 with (Z.ones 8).
  apply Z.bits_inj'. intros n Hn.
  rewrite Z.lor_spec, !Z.land_spec, Z.shiftl_spec by lia.
  destruct (Z.ltb_spec n 8) as [H8 | H8].
  - rewrite Z.testbit_neg_r by lia.
    rewrite !Z.ones_spec_low by lia. reflexivity.
  - rewrite Z.land_spec, Z.shiftr_spec by lia.
    replace (n - 8 + 8) with n by lia.
    destruct (Z.ltb_spec n 16) as [H16 | H16].
    + rewrite (Z.ones_spec_low 8 (n - 8)), (Z.ones_spec_low 16 n) by lia.
      rewrite (Z.ones_spec_high 8 n) by lia.
      rewrite !andb_true_r, andb_false_r, orb_false_r. reflexivity.
    + rewrite (Z.ones_spec_high 8 (n - 8)), (Z.ones_spec_high 16 n) by lia.
      rewrite (Z.ones_spec_high 8 n) by lia.
      rewrite !andb_false_r. reflexivity.
Qed.

(** X19.  The distance and rotation packets carry their value big-endian in dat1
    and dat0: recombining [(dat1 << 8) | dat0], as the decoders do, gives
    the value modulo 65536, hence the value itself when it is in
    [0,65535]. *)
Theorem mdps_value_recombines (v direction : Z) :
  let recombine p := Z.lor (Z.shiftl (NavconState.dat1 p) 8)
                           (NavconState.dat0 p) in
  recombine (NavconState.pkt_mdps_ist4_distance v) = v mod 65536 /\
  recombine (NavconState.pkt_mdps_ist2_rotation v direction) = v mod 65536 /\
  (0 <= v < 65536 ->
   recombine (NavconState.pkt_mdps_ist4_distance v) = v /\
   recombine (NavconState.pkt_mdps_ist2_rotation v direction) = v).
Proof.
  simpl. rewrite split_16_bits.
  split; [reflexivity|]. split; [reflexivity|].
  intros Hv. rewrite Z.mod_small by exact Hv. split; reflexivity.
Qed.

Lemma mdps_value_recombines_witness :
  0 <= 1100 < 65536 /\
  Z.lor (Z.shiftl (NavconState.dat1 (NavconState.pkt_mdps_ist4_distance 1100)) 8)
        (NavconState.dat0 (NavconState.pkt_mdps_ist4_distance 1100)) = 1100.
Proof.
  split; [lia|]. apply (mdps_value_recombines 1100 0). lia.
Defined.

(** X20.  [pkt_ss_colors] loses nothing: reading the three 3-bit fields of
    [(dat1 << 8) | dat0] gives back the three colors, BLACK included, and
    dat1 is 1 exactly when the first sensor is BLACK. *)
Theorem pkt_ss_colors_reads_back (s1 s2 s3 : NavconState.ColorType) :
  let p := NavconState.pkt_ss_colors s1 s2 s3 in
  let data := Z.lor (Z.shiftl (NavconState.dat1 p) 8) (NavconState.dat0 p) in
  Z.land (Z.shiftr data 6) 7 = NavconState.ColorType_int s1 /\
  Z.land (Z.shiftr data 3) 7 = NavconState.ColorType_int s2 /\
  Z.land data 7 = NavconState.ColorType_int s3 /\
  NavconState.dat1 p = (match s1 with NavconState.BLACK => 1 | _ => 0 end) /\
  NavconState.control p = 177.
Proof. destruct s1, s2, s3; vm_compute; auto. Qed.

(** X21.  The two testers pack an angle the same way as long as it is in
    [-256,255]: [pkt_ss_angle] and [create_angle_packet] then give the same
    four fields, with the angle modulo 256 in dat1. *)
Theorem angle_packets_agree (angle : Z) :
  -256 <= angle <= 255 ->
  let pS := NavconState.pkt_ss_angle angle in
  let pT := NavconTester.create_angle_packet angle in
  NavconState.control pS = NavconTester.control pT /\
  NavconState.dat1 pS = NavconTester.dat1 pT /\
  NavconState.dat0 pS = NavconTester.dat0 pT /\
  NavconState.dec pS = NavconTester.dec pT /\
  NavconState.dat1 pS = angle mod 256.
Proof.
  intros Hr. simpl. rewrite land_255_mod.
  repeat split; try reflexivity.
  destruct (Z.geb_spec angle 0); Z.div_mod_to_equations; lia.
Qed.

Lemma angle_packets_agree_witness :
  -256 <= -40 <= 255 /\
  NavconState.dat1 (NavconState.pkt_ss_angle (-40))
    = NavconTester.dat1 (NavconTester.create_angle_packet (-40)).
Proof. split; [lia|]. apply (angle_packets_agree (-40)). lia. Defined.

Example angle_packets_differ :
  NavconState.dat1 (NavconState.pkt_ss_angle (-300)) = 212 /\
  NavconTester.dat1 (NavconTester.create_angle_packet (-300)) = -44.
Proof. split; reflexivity. Qed.

(** ** test_navcon_decisions.py: the whole table of expected behaviors *)

(** X22.  For every angle and every key, [get_expected_behavior] is: AVOID on the
    two obstacle keys, STOP on ALL_RED, the text of the angle's band on the
    five other keys of [self.colors], and a KeyError naming the key on
    anything else.  So it raises exactly on the keys that are not among the
    eight. *)
Theorem expected_behavior_table (angle : Z) (color_key : string) :
  get_expected_behavior angle color_key
  = if bool_decide (color_key ∈ ["S2_BLUE"; "S2_BLACK"])
    then Ok "AVOID - Rotate away from obstacle"
    else if bool_decide (color_key = "ALL_RED")
    then Ok "STOP - End-of-maze detected"
    else if bool_decide
              (color_key ∈ ["WHITE"; "S2_RED"; "S2_GREEN"; "S1_GREEN"; "S3_GREEN"])
    then Ok (band_text (classify_angle angle) angle)
    else Raise (KeyError color_key).
Proof.
  destruct (decide (color_key ∈ ["S2_BLUE"; "S2_BLACK"])) as [Hob | Hob].
  { rewrite bool_decide_eq_true_2 by exact Hob.
    apply list_elem_of_In in Hob. simpl in Hob.
    destruct Hob as [<- | [<- | []]]; vm_compute; reflexivity. }
  rewrite bool_decide_eq_false_2 by exact Hob.
  destruct (decide (color_key = "ALL_RED")) as [-> | Hred].
  { vm_compute. reflexivity. }
  rewrite bool_decide_eq_false_2 by exact Hred.
  destruct (decide (color_key ∈ ["WHITE"; "S2_RED"; "S2_GREEN"; "S1_GREEN";
                                 "S3_GREEN"])) as [Hnav | Hnav].
  { rewrite bool_decide_eq_true_2 by exact Hnav.
    apply get_expected_behavior_band.
    apply list_elem_of_In in Hnav. simpl in Hnav. simpl. tauto. }
  rewrite bool_decide_eq_false_2 by exact Hnav.
  unfold get_expected_behavior.
  assert (Hnone : colors !! color_key = None).
  { unfold colors. apply not_elem_of_list_to_map_1. simpl.
    rewrite !not_elem_of_cons in Hob. rewrite !not_elem_of_cons in Hnav.
    rewrite !not_elem_of_cons.
    pose proof (not_elem_of_nil color_key). tauto. }
  rewrite Hnone. reflexivity.
Qed.

Example expected_behavior_obstacle_any_angle :
  get_expected_behavior 90 "S2_BLUE" = Ok "AVOID - Rotate away from obstacle" /\
  get_expected_behavior 0 "ALL_GREEN" = Raise (KeyError "ALL_GREEN").
Proof. split; vm_compute; reflexivity. Qed.

(** ** Coms tester/SNC.py: validation, expectation and automatic response *)

Lemma snc_get_system_state (p : ComsSNC.SCSPacket) :
  exists s, ComsSNC.get_system_state p = Ok s /\
            ComsSNC.SystemState_value s = (ComsSNC.control p / 64) mod 4.
Proof.
  unfold ComsSNC.get_system_state.
  rewrite <- land_3_mod, <- (shiftr_div _ 6) by lia.
  destruct (land_3_cases (Z.shiftr (ComsSNC.control p) 6))
    as [-> | [-> | [-> | ->]]]; eexists; split; reflexivity.
Qed.

Lemma snc_get_subsystem_id (p : ComsSNC.SCSPacket) :
  exists s, ComsSNC.get_subsystem_id p = Ok s /\
            ComsSNC.SubsystemID_value s = (ComsSNC.control p / 16) mod 4.
Proof.
  unfold ComsSNC.get_subsystem_id.
  rewrite <- land_3_mod, <- (shiftr_div _ 4) by lia.
  destruct (land_3_cases (Z.shiftr (ComsSNC.control p) 4))
    as [-> | [-> | [-> | ->]]]; eexists; split; reflexivity.
Qed.

Lemma snc_create_control_byte_sum (s : ComsSNC.SystemState)
    (sub : ComsSNC.SubsystemID) (ist : Z) :
  0 <= ist <= 15 ->
  ComsSNC.create_control_byte s sub ist
  = ComsSNC.SystemState_value s * 64 + ComsSNC.SubsystemID_value sub * 16 + ist.
Proof.
  intros Hist. destruct (nibble_nat ist Hist) as (n & -> & Hn).
  do 16 (destruct n as [| n]; [destruct s, sub; reflexivity |]).
  lia.
Qed.

(** X24.  [is_valid_packet] accepts every packet, whatever the integer in its
    control field: the three range tests can never fail on values read
    through 2-bit and 4-bit masks. *)
Theorem snc_is_valid_packet_always (p : ComsSNC.SCSPacket) :
  ComsSNC.is_valid_packet p = Ok true.
Proof.
  unfold ComsSNC.is_valid_packet.
  destruct (snc_get_system_state p) as (s & -> & _).
  destruct (snc_get_subsystem_id p) as (sub & -> & _). simpl.
  unfold ComsSNC.get_internal_state. rewrite land_15_mod.
  pose proof (Z.mod_pos_bound (ComsSNC.control p) 16 ltac:(lia)) as Hb.
  destruct (Z.leb_spec (ComsSNC.control p mod 16) 15); [|lia].
  destruct s, sub; reflexivity.
Qed.

(** X25.  A packet meets an expectation (sys, sub, ist), ist in [0,15], exactly
    when its control field modulo 256 is the control byte of that triple;
    the data bytes play no part. *)
Theorem snc_expectation_is_control_byte (p : ComsSNC.SCSPacket)
    (exp_sys : ComsSNC.SystemState) (exp_sub : ComsSNC.SubsystemID)
    (exp_ist : Z) :
  0 <= exp_ist <= 15 ->
  (ComsSNC.check_packet_expectation (Some (exp_sys, exp_sub, exp_ist)) p
   = Ok true
   <-> ComsSNC.control p mod 256
       = ComsSNC.create_control_byte exp_sys exp_sub exp_ist).
Proof.
  intros Hist. rewrite snc_create_control_byte_sum by exact Hist.
  unfold ComsSNC.check_packet_expectation.
  destruct (snc_get_system_state p) as (s & -> & Hs).
  destruct (snc_get_subsystem_id p) as (sub & -> & Hsub). simpl.
  unfold ComsSNC.get_internal_state. rewrite land_15_mod.
  set (c := ComsSNC.control p) in *.
  assert (Hc : c mod 256 = (c / 64) mod 4 * 64 + (c / 16) mod 4 * 16 + c mod 16)
    by (Z.div_mod_to_equations; lia).
  rewrite Hc, <- Hs, <- Hsub.
  pose proof (Z.mod_pos_bound c 16 ltac:(lia)) as Hb.
  destruct (Z.eqb_spec (c mod 16) exp_ist) as [Hi | Hi];
    destruct s, exp_sys; simpl; try (split; [discriminate | lia]);
    destruct sub, exp_sub; simpl; split; first [discriminate | lia | reflexivity].
Qed.

Lemma snc_expectation_is_control_byte_witness :
  0 <= 0 <= 15 /\
  (ComsSNC.check_packet_expectation
     (Some (ComsSNC.CAL, ComsSNC.SS, 0)) (ComsSNC.mkSCSPacket 112 7 8 9)
   = Ok true
   <-> 112 mod 256 = ComsSNC.create_control_byte ComsSNC.CAL ComsSNC.SS 0).
Proof.
  split; [lia|].
  apply (snc_expectation_is_control_byte (ComsSNC.mkSCSPacket 112 7 8 9)
           ComsSNC.CAL ComsSNC.SS 0).
  lia.
Defined.

(** X26.  [update_expected_next] sets an expectation only in IDLE (CAL:SS:0) and
    in SOS (MAZE:SNC:1); in CAL and in MAZE the table offers several
    successors, the expectation is cleared, and every packet is then
    reported as expected. *)
Theorem snc_expectation_by_state (p : ComsSNC.SCSPacket) :
  fst (ComsSNC.update_expected_next ComsSNC.IDLE)
    = Some (ComsSNC.CAL, ComsSNC.SS, 0) /\
  fst (ComsSNC.update_expected_next ComsSNC.SOS)
    = Some (ComsSNC.MAZE, ComsSNC.SNC, 1) /\
  ComsSNC.update_expected_next ComsSNC.CAL
    = (None, "Multiple possibilities - see state diagram") /\
  ComsSNC.update_expected_next ComsSNC.MAZE
    = (None, "Multiple possibilities - see state diagram") /\
  ComsSNC.check_packet_expectation
    (fst (ComsSNC.update_expected_next ComsSNC.CAL)) p = Ok true /\
  ComsSNC.check_packet_expectation
    (fst (ComsSNC.update_expected_next ComsSNC.MAZE)) p = Ok true.
Proof. repeat split. Qed.

(** X27.  [generate_response_packet] answers only a packet in CAL with internal
    state 0 or in MAZE with internal state 1, and the answer is always the
    SS packet with internal state 1 of the same system state, with zero
    data. *)
Theorem snc_response_is_ss_ist1 (p r : ComsSNC.SCSPacket) :
  ComsSNC.generate_response_packet p = Ok (Some r) ->
  ComsSNC.get_system_state r = ComsSNC.get_system_state p /\
  ComsSNC.get_subsystem_id r = Ok ComsSNC.SS /\
  ComsSNC.get_internal_state r = 1 /\
  (ComsSNC.dat1 r, ComsSNC.dat0 r, ComsSNC.dec r) = (0, 0, 0) /\
  ((ComsSNC.get_system_state p = Ok ComsSNC.CAL /\
    ComsSNC.get_internal_state p = 0) \/
   (ComsSNC.get_system_state p = Ok ComsSNC.MAZE /\
    ComsSNC.get_internal_state p = 1)).
Proof.
  unfold ComsSNC.generate_response_packet.
  destruct (snc_get_system_state p) as (s & Hs & _). rewrite Hs. simpl.
  destruct s; simpl.
  - discriminate.
  - destruct (Z.eqb_spec (ComsSNC.get_internal_state p) 0) as [H0 | H0];
      [|discriminate].
    intros [= <-]. repeat split; auto.
  - destruct (Z.eqb_spec (ComsSNC.get_internal_state p) 1) as [H1 | H1];
      [|discriminate].
    intros [= <-]. repeat split; auto.
  - discriminate.
Qed.

Lemma snc_response_is_ss_ist1_witness :
  ComsSNC.generate_response_packet (ComsSNC.mkSCSPacket 80 1 0 0)
    = Ok (Some (ComsSNC.mkSCSPacket 113 0 0 0)) /\
  ComsSNC.get_subsystem_id (ComsSNC.mkSCSPacket 113 0 0 0) = Ok ComsSNC.SS.
Proof.
  assert (H : ComsSNC.generate_response_packet (ComsSNC.mkSCSPacket 80 1 0 0)
              = Ok (Some (ComsSNC.mkSCSPacket 113 0 0 0))) by reflexivity.
  split; [exact H|].
  apply (snc_response_is_ss_ist1 (ComsSNC.mkSCSPacket 80 1 0 0)
           (ComsSNC.mkSCSPacket 113 0 0 0) H).
Defined.

(** ** Phase0_Tester.py: the masking packet and the simulated robot *)

Lemma phase0_control_range (sys_state subsystem ist d1 d0 de : Z) :
  0 <= Phase0Tester.control
         (Phase0Tester.SCSPacket_new sys_state subsystem ist d1 d0 de) <= 255.
Proof.
  unfold Phase0Tester.SCSPacket_new. simpl.
  rewrite (land_15_mod ist).
  pose proof (Z.mod_pos_bound ist 16 ltac:(lia)) as Hb.
  destruct (nibble_nat (ist mod 16) ltac:(lia)) as (n & -> & Hn).
  destruct (land_3_cases sys_state) as [-> | [-> | [-> | ->]]];
    destruct (land_3_cases subsystem) as [-> | [-> | [-> | ->]]];
    do 16 (destruct n as [| n]; [vm_compute; intuition congruence |]);
    lia.
Qed.

Lemma land_255_idem (x : Z) : Z.land (Z.land x 255) 255 = Z.land x 255.
Proof. rewrite !land_255_mod. apply Z.mod_mod. lia. Qed.

(** X28.  Whatever six integers the constructor is given, [to_bytes] of the
    packet succeeds with four bytes, and [from_bytes] of these bytes is the
    same packet again. *)
Theorem phase0_bytes_round_trip (sys_state subsystem ist d1 d0 de : Z) :
  let p := Phase0Tester.SCSPacket_new sys_state subsystem ist d1 d0 de in
  exists data,
    Phase0Tester.to_bytes p = Ok data /\
    length data = 4%nat /\
    Forall (fun b => 0 <= b <= 255) data /\
    Phase0Tester.from_bytes data = Some p.
Proof.
  intros p.
  pose proof (phase0_control_range sys_state subsystem ist d1 d0 de) as Hc.
  fold p in Hc.
  exists [Phase0Tester.control p; Phase0Tester.dat1 p; Phase0Tester.dat0 p;
          Phase0Tester.dec p].
  assert (H1 : 0 <= Phase0Tester.dat1 p <= 255)
    by (simpl; rewrite land_255_mod; pose proof (Z.mod_pos_bound d1 256); lia).
  assert (H0 : 0 <= Phase0Tester.dat0 p <= 255)
    by (simpl; rewrite land_255_mod; pose proof (Z.mod_pos_bound d0 256); lia).
  assert (He : 0 <= Phase0Tester.dec p <= 255)
    by (simpl; rewrite land_255_mod; pose proof (Z.mod_pos_bound de 256); lia).
  split.
  { unfold Phase0Tester.to_bytes, bytes_of, forallb.
    rewrite (proj2 (between_spec 0 _ 255) Hc), (proj2 (between_spec 0 _ 255) H1),
      (proj2 (between_spec 0 _ 255) H0), (proj2 (between_spec 0 _ 255) He).
    reflexivity. }
  split; [reflexivity|].
  split; [repeat (apply Forall_cons; split; [assumption|]); apply Forall_nil_2|].
  unfold Phase0Tester.from_bytes. simpl.
  rewrite !land_255_idem. reflexivity.
Qed.

Example phase0_from_bytes_short : Phase0Tester.from_bytes [145; 0; 0] = None.
Proof. reflexivity. Qed.

Lemma handle_navcon_command_step (h : Phase0Tester.Harness)
    (p : Phase0Tester.SCSPacket) :
  0 <= Phase0Tester.current_distance h ->
  let h' := Phase0Tester.handle_navcon_command h p in
  0 <= Phase0Tester.current_distance h'
       <= Phase0Tester.current_distance h + 10 /\
  Phase0Tester.test_type h' = Phase0Tester.test_type h /\
  exists more, Phase0Tester.log h' = (Phase0Tester.log h ++ more)%list.
Proof.
  intros Hd. unfold Phase0Tester.handle_navcon_command.
  destruct (Phase0Tester.dec p =? 0).
  { simpl. destruct (Phase0Tester.test_type h) as [ty |]; simpl;
      [destruct (String.eqb ty "QTP1A");
       [|destruct (String.eqb ty "QTP13")] |];
      simpl; (split; [lia|]); (split; [reflexivity|]);
      rewrite <- ?app_assoc; eauto. }
  destruct (Phase0Tester.dec p =? 1).
  { simpl. split; [lia|]. split; [reflexivity|]. eauto. }
  destruct (Phase0Tester.dec p =? 2).
  { simpl. split; [lia|]. split; [reflexivity|]. eauto. }
  destruct (Phase0Tester.dec p =? 3).
  { simpl. split; [lia|]. split; [reflexivity|]. eauto. }
  destruct (Phase0Tester.dec p =? 4).
  { simpl. split; [lia|]. split; [reflexivity|]. eauto. }
  split; [lia|]. split; [reflexivity|]. exists []. rewrite app_nil_r. reflexivity.
Qed.

(** X29.  Over any sequence of NAVCON commands the simulated distance never
    becomes negative and grows by at most 10 per command; the test type is
    untouched and the log only gains messages. *)
Theorem phase0_distance_invariant (packets : list Phase0Tester.SCSPacket) :
  forall h : Phase0Tester.Harness,
    0 <= Phase0Tester.current_distance h ->
    let h' := Phase0Tester.handle_all h packets in
    0 <= Phase0Tester.current_distance h'
         <= Phase0Tester.current_distance h + 10 * Z.of_nat (length packets) /\
    Phase0Tester.test_type h' = Phase0Tester.test_type h /\
    exists more, Phase0Tester.log h' = (Phase0Tester.log h ++ more)%list.
Proof.
  unfold Phase0Tester.handle_all.
  induction packets as [| p rest IH]; intros h Hd; simpl.
  - split; [lia|]. split; [reflexivity|]. exists []. rewrite app_nil_r. reflexivity.
  - destruct (handle_navcon_command_step h p Hd) as (Hr & Ht & more1 & Hl).
    destruct (IH (Phase0Tester.handle_navcon_command h p) ltac:(lia))
      as (Hr' & Ht' & more2 & Hl').
    split; [lia|]. split; [congruence|].
    exists (more1 ++ more2)%list. rewrite Hl', Hl, app_assoc. reflexivity.
Qed.

Lemma phase0_distance_invariant_witness :
  0 <= 5 /\
  0 <= Phase0Tester.current_distance
         (Phase0Tester.handle_all
            (Phase0Tester.mkHarness false 5 None [])
            [Phase0Tester.mkSCSPacket 147 0 0 1;
             Phase0Tester.mkSCSPacket 147 0 0 1])
       <= 5 + 10 * Z.of_nat 2.
Proof.
  split; [lia|].
  apply (phase0_distance_invariant
           [Phase0Tester.mkSCSPacket 147 0 0 1;
            Phase0Tester.mkSCSPacket 147 0 0 1]
           (Phase0Tester.mkHarness false 5 None [])).
  simpl. lia.
Defined.

Example phase0_backward_clamps :
  Phase0Tester.current_distance
    (Phase0Tester.handle_all (Phase0Tester.mkHarness false 5 None [])
       [Phase0Tester.mkSCSPacket 147 0 0 1]) = 0.
Proof. reflexivity. Qed.

(** X30.  The speed that the MDPS response reports follows the last command:
    80 on both wheels after FORWARD or BACKWARD (dec 0 or 1), 0 after a
    rotation or STOP (dec 2, 3 or 4); a command with any other dec leaves
    the harness exactly as it was. *)
Theorem phase0_speed_follows_command (h : Phase0Tester.Harness)
    (p : Phase0Tester.SCSPacket) :
  let h' := Phase0Tester.handle_navcon_command h p in
  let r := Phase0Tester.mdps_speed_response h' in
  (Phase0Tester.dec p = 0 \/ Phase0Tester.dec p = 1 ->
   Phase0Tester.dat1 r = 80 /\ Phase0Tester.dat0 r = 80) /\
  (Phase0Tester.dec p = 2 \/ Phase0Tester.dec p = 3 \/ Phase0Tester.dec p = 4 ->
   Phase0Tester.dat1 r = 0 /\ Phase0Tester.dat0 r = 0) /\
  (~ (0 <= Phase0Tester.dec p <= 4) -> h' = h) /\
  Phase0Tester.control r = 163.
Proof.
  unfold Phase0Tester.handle_navcon_command, Phase0Tester.mdps_speed_response.
  destruct (Z.eqb_spec (Phase0Tester.dec p) 0) as [E0 | E0].
  { simpl. destruct (Phase0Tester.test_type h) as [ty |]; simpl;
      [destruct (String.eqb ty "QTP1A");
       [|destruct (String.eqb ty "QTP13")] |];
      simpl; repeat split; try reflexivity; intros; lia. }
  destruct (Z.eqb_spec (Phase0Tester.dec p) 1) as [E1 | E1].
  { simpl. repeat split; try reflexivity; intros; lia. }
  destruct (Z.eqb_spec (Phase0Tester.dec p) 2) as [E2 | E2].
  { simpl. repeat split; try reflexivity; intros; lia. }
  destruct (Z.eqb_spec (Phase0Tester.dec p) 3) as [E3 | E3].
  { simpl. repeat split; try reflexivity; intros; lia. }
  destruct (Z.eqb_spec (Phase0Tester.dec p) 4) as [E4 | E4].
  { simpl. repeat split; try reflexivity; intros; lia. }
  destruct (Phase0Tester.robot_stopped h);
    simpl; repeat split; try reflexivity; intros; lia.
Qed.

Lemma phase0_speed_follows_command_witness :
  (2 = 2 \/ 2 = 3 \/ 2 = 4) /\
  Phase0Tester.dat1
    (Phase0Tester.mdps_speed_response
       (Phase0Tester.handle_navcon_command
          (Phase0Tester.mkHarness false 1000 None [])
          (Phase0Tester.mkSCSPacket 147 0 90 2))) = 0.
Proof.
  split; [left; reflexivity|].
  apply (phase0_speed_follows_command
           (Phase0Tester.mkHarness false 1000 None [])
           (Phase0Tester.mkSCSPacket 147 0 90 2)).
  left; reflexivity.
Defined.

Lemma phase0_distance_response_recombines (h : Phase0Tester.Harness) :
  let r := Phase0Tester.mdps_distance_response h in
  Z.lor (Z.shiftl (Phase0Tester.dat1 r) 8) (Phase0Tester.dat0 r)
  = Phase0Tester.current_distance h mod 65536.
Proof.
  simpl. rewrite !land_255_idem. apply split_16_bits.
Qed.

Example phase0_subsystem_names :
  Phase0Tester.get_subsystem_name 2 = "MDPS" /\
  Phase0Tester.get_subsystem_name 4 = "UNKNOWN" /\
  Phase0Tester.get_subsystem_name (-1) = "UNKNOWN".
Proof. repeat split. Qed.

(** ** Navcon_state.py: when a scenario passes *)

(** X23.  A decision packet that asks for a rotation (dec 2 or 3) of at most 10
    degrees satisfies a scenario that expects FORWARD, through the STEER
    exception of the pass test, and satisfies no scenario that expects
    anything other than FORWARD or STEER. *)
Theorem steer_passes_forward_scenario (pkt : NavconState.SCSPacket) :
  NavconState.dec pkt = 2 \/ NavconState.dec pkt = 3 ->
  Z.lor (Z.shiftl (NavconState.dat1 pkt) 8) (NavconState.dat0 pkt) <= 10 ->
  NavconState.scenario_passes (fst (NavconState._decode pkt))
    NavconState.FORWARD = true /\
  forall expect,
    expect <> NavconState.FORWARD -> expect <> NavconState.STEER ->
    NavconState.scenario_passes (fst (NavconState._decode pkt)) expect = false.
Proof.
  intros Hdec Hrot.
  assert (Hact : fst (NavconState._decode pkt) = NavconState.STEER).
  { unfold NavconState._decode.
    set (ang := Z.lor (Z.shiftl (NavconState.dat1 pkt) 8)
                      (NavconState.dat0 pkt)) in *.
    destruct (Z.eqb_spec ang 180); [lia|].
    destruct (Z.eqb_spec ang 360); [lia|].
    destruct (Z.leb_spec ang 10); [|lia].
    destruct Hdec as [-> | ->]; reflexivity. }
  rewrite Hact. split; [reflexivity|].
  intros expect Hf Hs. unfold NavconState.scenario_passes.
  rewrite (bool_decide_eq_false_2 (NavconState.STEER = expect)) by congruence.
  rewrite (bool_decide_eq_false_2 (expect = NavconState.FORWARD)) by exact Hf.
  reflexivity.
Qed.

Lemma steer_passes_forward_scenario_witness :
  (2 = 2 \/ 2 = 3) /\ Z.lor (Z.shiftl 0 8) 5 <= 10 /\
  NavconState.scenario_passes
    (fst (NavconState._decode (NavconState.mkSCSPacket 147 0 5 2)))
    NavconState.FORWARD = true.
Proof.
  split; [left; reflexivity|]. split; [vm_compute; discriminate|].
  apply (steer_passes_forward_scenario (NavconState.mkSCSPacket 147 0 5 2));
    [left; reflexivity | vm_compute; discriminate].
Defined.

Example fixed_packets :
  make_idle_hub_packet = Ok (mkSCSPacket 0 0 0 0) /\
  make_idle_snc_packet 1 50 = Ok (mkSCSPacket 16 1 50 0) /\
  make_cal_ss_packet 1 = Ok (mkSCSPacket 113 0 0 0) /\
  make_maze_ss_eom_packet = Ok (mkSCSPacket 179 0 0 0) /\
  NavconState.pkt_ss_eom = NavconState.mkSCSPacket 179 0 0 0 /\
  NavconState.pkt_mdps_ist1_batt 80 = NavconState.mkSCSPacket 161 80 0 0 /\
  NavconState.pkt_mdps_ist3_speed 0 0 = NavconState.mkSCSPacket 163 0 0 0 /\
  NavconTester.describe_sent_packet (NavconTester.create_calibration_packet 50 60)
    = Ok "Calibration: vL=50 vR=60".
Proof. repeat split. Qed.
